(** * EcoHarvest: order, payment, inventory and messaging handlers

    A shallow embedding of the request handlers of the EcoHarvest
    micro-services and the properties their specification states about them.

    - [Js]              JavaScript scalars, truthiness and [a || b]
    - [OrderModel]      services/order-service/src/models/order.model.js
    - [OrderRoutes]     services/order-service/src/routes/order.routes.js
    - [PaymentService]  services/payment-service/src/index.js
    - [ProductInventory] product controller, [updateInventory]
    - [Messaging]       packages/shared/messaging.js, [RabbitMQ.subscribe]
    - [OrderQueries], [PaymentQueries]  the read routes of both services
    - [ProductModel]    the [isLowStock] virtual of the product schema
    - [Publisher]       packages/shared/messaging.js, [publish], [sendToQueue]
    - [ObjectId], [Http]  the routes on requests as they arrive: the cast
                        of the id parameter, raw card numbers and subtotals

    Conventions.  A Mongo collection is the list of its documents in insertion
    order.  Every handler is a function from the request, the values the
    handler draws from its environment (clock, uuid, [Math.random]) and the
    collection to the HTTP response and the new collection.  The handlers
    of the service modules work on values of the types the schemas declare:
    an id is an ObjectId, a number is a whole number, a [Z], of a magnitude
    on which the double arithmetic of the handlers is exact ([Http.bound]).
    What the routes do with a request before that, the cast of the id
    parameter and the arithmetic on raw body values, is in [Http].  Dates
    are milliseconds, also [Z]. *)

From Stdlib Require Import ZArith List String Ascii Bool Lia DecimalString.
From Stdlib Require Import Sorting.Permutation Sorting.Sorted.
Import ListNotations.

Open Scope string_scope.
Open Scope list_scope.
Open Scope Z_scope.

(** ** JavaScript values *)

Module Js.

(** The scalars a JSON body field can hold; [JUndefined] is an absent field. *)
Inductive JsVal : Type :=
| JUndefined
| JNull
| JBool (b : bool)
| JNum (n : Z)
| JStr (s : string).

(** ToBoolean. *)
Definition truthy (v : JsVal) : bool :=
  match v with
  | JUndefined | JNull => false
  | JBool b => b
  | JNum n => negb (n =? 0)
  | JStr s => negb (s =? EmptyString)%string
  end.

(** [a || b]. *)
Definition or (a b : JsVal) : JsVal := if truthy a then a else b.

(** [a || b] on optional strings: an absent or empty string is falsy. *)
Definition str_truthy (a : option string) : bool :=
  match a with
  | Some s => negb (s =? EmptyString)%string
  | None => false
  end.

Definition str_or (a b : option string) : option string :=
  if str_truthy a then a else b.

(** [list.includes(x)] on strings. *)
Definition includes (l : list string) (x : string) : bool :=
  existsb (String.eqb x) l.

End Js.

(** The JSON envelope every handler answers with: [res.status(code).json(...)]. *)
Record Response (A : Type) : Type := mkResponse {
  res_code : Z;
  res_success : bool;
  res_text : string;          (* the [message] or the [error] field *)
  res_data : option A
}.
Arguments mkResponse {A}.
Arguments res_code {A}.
Arguments res_success {A}.
Arguments res_text {A}.
Arguments res_data {A}.

(** ** The order model *)

Module OrderModel.

(** [orderItemSchema].  Field names carry the prefix [i_]. *)
Record OrderItem : Type := mkItem {
  i_productId : string;
  i_productName : string;
  i_productImage : option string;
  i_vendorId : string;
  i_vendorName : option string;
  i_quantity : Z;
  i_price : Z;
  i_discount : Z;
  i_subtotal : Z
}.

(** [addressSchema]. *)
Record Address : Type := mkAddress {
  fullName : string;
  phone : string;
  street : string;
  city : string;
  state : option string;
  postalCode : option string;
  country : string
}.

(** [orderSchema], with the [createdAt]/[updatedAt] pair of
    [timestamps: true].  The [metadata] map, which no route reads or writes,
    is left out. *)
Record Order : Type := mkOrder {
  _id : string;
  orderNumber : string;
  customerId : option string;
  customerEmail : option string;
  customerName : option string;
  items : list OrderItem;
  shippingAddress : option Address;
  billingAddress : option Address;
  subtotal : Z;
  shippingCost : Z;
  tax : Z;
  discount : Z;
  totalAmount : Z;
  status : string;
  paymentMethod : string;
  paymentStatus : string;
  paymentId : option string;
  orderTime : Z;
  confirmedAt : option Z;
  shippedAt : option Z;
  deliveredAt : option Z;
  cancelledAt : option Z;
  trackingNumber : option string;
  carrier : option string;
  estimatedDelivery : option Z;
  notes : option string;
  cancellationReason : option string;
  createdAt : Z;
  updatedAt : Z
}.

(** The [enum] lists of the schema. *)
Definition status_enum : list string :=
  ["Pending"; "Pending Payment"; "Confirmed"; "Processing"; "Shipped";
   "Out for Delivery"; "Delivered"; "Cancelled"; "Refunded"].

Definition paymentMethod_enum : list string :=
  ["cod"; "card"; "upi"; "netbanking"; "wallet"].

Definition paymentStatus_enum : list string :=
  ["pending"; "paid"; "failed"; "refunded"].

(** [required: true] on a string path: absent and empty both fail. *)
Definition required_str (s : string) : bool := negb (s =? EmptyString)%string.

Definition valid_item (i : OrderItem) : bool :=
  required_str (i_productId i) && required_str (i_productName i)
  && required_str (i_vendorId i) && (1 <=? i_quantity i).

Definition valid_address (a : option Address) : bool :=
  match a with
  | None => true
  | Some a =>
      required_str (fullName a) && required_str (phone a)
      && required_str (street a) && required_str (city a)
  end.

(** Document validation, as run by [Order.create]. *)
Definition validate (o : Order) : bool :=
  Js.str_truthy (customerId o)
  && forallb valid_item (items o)
  && valid_address (shippingAddress o)
  && valid_address (billingAddress o)
  && Js.includes status_enum (status o)
  && Js.includes paymentMethod_enum (paymentMethod o)
  && Js.includes paymentStatus_enum (paymentStatus o).

(** The fields the routes assign after creation, replaced together. *)
Definition with_fields (o : Order) (st : string)
    (conf ship deliv canc : option Z) (track carr reason : option string)
    (upd : Z) : Order :=
  mkOrder (_id o) (orderNumber o) (customerId o) (customerEmail o)
    (customerName o) (items o) (shippingAddress o) (billingAddress o)
    (subtotal o) (shippingCost o) (tax o) (discount o) (totalAmount o)
    st (paymentMethod o) (paymentStatus o) (paymentId o) (orderTime o)
    conf ship deliv canc track carr (estimatedDelivery o) (notes o) reason
    (createdAt o) upd.

Definition set_status (s : string) (o : Order) : Order :=
  with_fields o s (confirmedAt o) (shippedAt o) (deliveredAt o)
    (cancelledAt o) (trackingNumber o) (carrier o) (cancellationReason o)
    (updatedAt o).
Definition set_confirmedAt (t : Z) (o : Order) : Order :=
  with_fields o (status o) (Some t) (shippedAt o) (deliveredAt o)
    (cancelledAt o) (trackingNumber o) (carrier o) (cancellationReason o)
    (updatedAt o).
Definition set_shippedAt (t : Z) (o : Order) : Order :=
  with_fields o (status o) (confirmedAt o) (Some t) (deliveredAt o)
    (cancelledAt o) (trackingNumber o) (carrier o) (cancellationReason o)
    (updatedAt o).
Definition set_deliveredAt (t : Z) (o : Order) : Order :=
  with_fields o (status o) (confirmedAt o) (shippedAt o) (Some t)
    (cancelledAt o) (trackingNumber o) (carrier o) (cancellationReason o)
    (updatedAt o).
Definition set_cancelledAt (t : Z) (o : Order) : Order :=
  with_fields o (status o) (confirmedAt o) (shippedAt o) (deliveredAt o)
    (Some t) (trackingNumber o) (carrier o) (cancellationReason o)
    (updatedAt o).
Definition set_trackingNumber (s : string) (o : Order) : Order :=
  with_fields o (status o) (confirmedAt o) (shippedAt o) (deliveredAt o)
    (cancelledAt o) (Some s) (carrier o) (cancellationReason o)
    (updatedAt o).
Definition set_carrier (s : string) (o : Order) : Order :=
  with_fields o (status o) (confirmedAt o) (shippedAt o) (deliveredAt o)
    (cancelledAt o) (trackingNumber o) (Some s) (cancellationReason o)
    (updatedAt o).
Definition set_cancellationReason (r : option string) (o : Order) : Order :=
  with_fields o (status o) (confirmedAt o) (shippedAt o) (deliveredAt o)
    (cancelledAt o) (trackingNumber o) (carrier o) r (updatedAt o).
Definition set_updatedAt (t : Z) (o : Order) : Order :=
  with_fields o (status o) (confirmedAt o) (shippedAt o) (deliveredAt o)
    (cancelledAt o) (trackingNumber o) (carrier o) (cancellationReason o) t.

(** The collection. *)
Definition Orders : Type := list Order.

(** [Order.findById], on the ObjectId the parameter of the route has been
    cast to ([Http]). *)
Fixpoint findById (id : string) (db : Orders) : option Order :=
  match db with
  | [] => None
  | o :: rest => if (_id o =? id)%string then Some o else findById id rest
  end.

(** Writing a document back under its [_id]: the first document with that
    [_id] is replaced. *)
Fixpoint store (o' : Order) (db : Orders) : Orders :=
  match db with
  | [] => []
  | o :: rest =>
      if (_id o =? _id o')%string then o' :: rest else o :: store o' rest
  end.

(** The unique indexes: [_id], and [orderNumber]. *)
Definition duplicate_key (o : Order) (db : Orders) : bool :=
  existsb (fun x => (_id x =? _id o)%string
                    || (orderNumber x =? orderNumber o)%string) db.

End OrderModel.


(** ** The order routes *)

Module OrderRoutes.
Import OrderModel.

(** What a request handler reads besides the body and the collection. *)
Record Env : Type := mkEnv {
  x_user_id : option string;     (* [req.headers['x-user-id']] *)
  now : Z;                       (* [new Date()] / [Date.now()] *)
  fresh_id : string;             (* the [_id] the driver generates *)
  fresh_orderNumber : string     (* the [ECO-<ms>-<random>] of the pre-save hook *)
}.

(** The body of [POST /].  [b_items = None] is a body whose [items] is not an
    array, on which [items.reduce] throws. *)
Record CreateBody : Type := mkCreateBody {
  b_customerId : option string;
  b_customerEmail : option string;
  b_customerName : option string;
  b_items : option (list OrderItem);
  b_shippingAddress : option Address;
  b_billingAddress : option Address;
  b_paymentMethod : option string;
  b_notes : option string
}.

(** [items.reduce((sum, item) => sum + item.subtotal, 0)] on subtotals that
    are numbers; [Http.reduce] is the sum on the values as sent. *)
Definition reduce_subtotal (its : list OrderItem) : Z :=
  fold_left (fun sum item => sum + i_subtotal item) its 0.

(** [subtotal > 500 ? 0 : 50]. *)
Definition shipping_for (sub : Z) : Z := if 500 <? sub then 0 else 50.

(** [Math.round(subtotal * 0.18)]: the nearest integer to 18% of the
    subtotal, a half rounding up.  The double product is within 0.02 of the
    exact one, and so rounds the same way, for subtotals of magnitude up to
    [Http.bound]; beyond that the route is not modelled. *)
Definition gst_for (sub : Z) : Z := (sub * 18 + 50) / 100.

Definition addr_or (a b : option Address) : option Address :=
  match a with Some _ => a | None => b end.

(** The document [Order.create] is called with, schema defaults filled in
    and the pre-save order number set. *)
Definition new_order (e : Env) (b : CreateBody) (its : list OrderItem) : Order :=
  let sub := reduce_subtotal its in
  let ship := shipping_for sub in
  let gst := gst_for sub in
  let total := sub + ship + gst in
  let method := match b_paymentMethod b with Some m => m | None => "cod" end in
  {| _id := fresh_id e;
     orderNumber := fresh_orderNumber e;
     customerId := Js.str_or (b_customerId b) (x_user_id e);
     customerEmail := b_customerEmail b;
     customerName := b_customerName b;
     items := its;
     shippingAddress := b_shippingAddress b;
     billingAddress := addr_or (b_billingAddress b) (b_shippingAddress b);
     subtotal := sub;
     shippingCost := ship;
     tax := gst;
     discount := 0;
     totalAmount := total;
     status := if (method =? "cod")%string then "Confirmed" else "Pending Payment";
     paymentMethod := method;
     paymentStatus := "pending";
     paymentId := None;
     orderTime := now e;
     confirmedAt := None;
     shippedAt := None;
     deliveredAt := None;
     cancelledAt := None;
     trackingNumber := None;
     carrier := None;
     estimatedDelivery := None;
     notes := b_notes b;
     cancellationReason := None;
     createdAt := now e;
     updatedAt := now e |}.

Definition failed {A} (code : Z) (err : string) : Response A :=
  mkResponse code false err None.

(** The handler of [router.post('/')] on a body whose items are of the type
    the item schema declares; the route on the items as sent is
    [Http.post_order]. *)
Definition createOrder (e : Env) (b : CreateBody) (db : Orders)
  : Response Order * Orders :=
  match b_items b with
  | None => (failed 500 "Failed to create order", db)
  | Some its =>
      let o := new_order e b its in
      if validate o && negb (duplicate_key o db)
      then (mkResponse 201 true "Order placed successfully" (Some o), db ++ [o])
      else (failed 500 "Failed to create order", db)
  end.

(** The body of [PUT /:id/status]. *)
Record StatusBody : Type := mkStatusBody {
  s_status : string;
  s_trackingNumber : option string;
  s_carrier : option string
}.

(** One path of a [$set] document. *)
Inductive SetField : Type :=
| SetStatus (s : string)
| SetConfirmedAt (t : Z)
| SetShippedAt (t : Z)
| SetTrackingNumber (s : string)
| SetCarrier (s : string)
| SetDeliveredAt (t : Z)
| SetCancelledAt (t : Z).

Definition if_truthy (a : option string) (f : string -> SetField) : list SetField :=
  match a with
  | Some s => if Js.str_truthy a then [f s] else []
  | None => []
  end.

(** [updateData], in the order the handler fills it. *)
Definition updateData (t : Z) (b : StatusBody) : list SetField :=
  let st := s_status b in
  [SetStatus st]
  ++ (if (st =? "Confirmed")%string then [SetConfirmedAt t] else [])
  ++ (if (st =? "Shipped")%string
      then [SetShippedAt t]
           ++ if_truthy (s_trackingNumber b) SetTrackingNumber
           ++ if_truthy (s_carrier b) SetCarrier
      else [])
  ++ (if (st =? "Delivered")%string then [SetDeliveredAt t] else [])
  ++ (if (st =? "Cancelled")%string then [SetCancelledAt t] else []).

Definition apply_set (o : Order) (f : SetField) : Order :=
  match f with
  | SetStatus s => set_status s o
  | SetConfirmedAt t => set_confirmedAt t o
  | SetShippedAt t => set_shippedAt t o
  | SetTrackingNumber s => set_trackingNumber s o
  | SetCarrier s => set_carrier s o
  | SetDeliveredAt t => set_deliveredAt t o
  | SetCancelledAt t => set_cancelledAt t o
  end.

(** [Order.findByIdAndUpdate(id, { $set: upd }, { new: true })]: no
    validators run; the timestamps option stamps [updatedAt]. *)
Definition findByIdAndUpdate (id : string) (upd : list SetField) (t : Z)
    (db : Orders) : option Order * Orders :=
  match findById id db with
  | None => (None, db)
  | Some o =>
      let o' := set_updatedAt t (fold_left apply_set upd o) in
      (Some o', store o' db)
  end.

(** The handler of [router.put('/:id/status')] on the ObjectId [id] that
    [req.params.id] has been cast to; the route with the cast is
    [Http.put_status]. *)
Definition updateStatus (t : Z) (id : string) (b : StatusBody) (db : Orders)
  : Response Order * Orders :=
  match findByIdAndUpdate id (updateData t b) t db with
  | (None, db') => (failed 404 "Order not found", db')
  | (Some o, db') => (mkResponse 200 true "Order status updated" (Some o), db')
  end.

(** The handler of [router.post('/:id/cancel')] on the ObjectId [id] that
    [req.params.id] has been cast to; the route with the cast is
    [Http.post_cancel]. *)
Definition cancelOrder (t : Z) (id : string) (reason : option string)
    (db : Orders) : Response Order * Orders :=
  match findById id db with
  | None => (failed 404 "Order not found", db)
  | Some o =>
      if Js.includes ["Shipped"; "Out for Delivery"; "Delivered"] (status o)
      then (failed 400 "Order cannot be cancelled at this stage", db)
      else
        let o' := set_updatedAt t
                    (set_cancellationReason reason
                       (set_cancelledAt t (set_status "Cancelled" o))) in
        (mkResponse 200 true "Order cancelled successfully" (Some o'),
         store o' db)
  end.

(** The requests that write to the collection, and the service serving a
    sequence of them. *)
Inductive Request : Type :=
| PostOrder (e : Env) (b : CreateBody)
| PutStatus (t : Z) (id : string) (b : StatusBody)
| PostCancel (t : Z) (id : string) (reason : option string).

Definition handle (r : Request) (db : Orders) : Response Order * Orders :=
  match r with
  | PostOrder e b => createOrder e b db
  | PutStatus t id b => updateStatus t id b db
  | PostCancel t id reason => cancelOrder t id reason db
  end.

Definition serve (rs : list Request) (db : Orders) : Orders :=
  fold_left (fun d r => snd (handle r d)) rs db.

(** The amounts of an order that creation computes. *)
Definition totals (o : Order) : list OrderItem * (Z * Z * Z * Z * Z) :=
  (items o, (subtotal o, shippingCost o, tax o, discount o, totalAmount o)).

(** The sum of the items' subtotals, item by item. *)
Fixpoint sum_subtotals (its : list OrderItem) : Z :=
  match its with
  | [] => 0
  | i :: rest => i_subtotal i + sum_subtotals rest
  end.

End OrderRoutes.


(** ** The payment service *)

Module PaymentService.
Import Js.

(** A value stored under the [Mixed] path [gatewayResponse]. *)
Inductive MixedVal : Type :=
| MJson (v : JsVal)
| MStr (s : string)
| MDate (t : Z).

(** A plain object: its keys in insertion order. *)
Definition Obj : Type := list (string * MixedVal).

(** Writing [k: v] in an object literal after a spread: an existing key keeps
    its place and takes the new value, a new key goes last. *)
Fixpoint obj_set (k : string) (v : MixedVal) (o : Obj) : Obj :=
  match o with
  | [] => [(k, v)]
  | (k', v') :: rest =>
      if (k' =? k)%string then (k, v) :: rest else (k', v') :: obj_set k v rest
  end.

Fixpoint obj_get (k : string) (o : Obj) : option MixedVal :=
  match o with
  | [] => None
  | (k', v) :: rest => if (k' =? k)%string then Some v else obj_get k rest
  end.

(** [paymentSchema], with [createdAt]/[updatedAt]; [metadata] is left out. *)
Record Payment : Type := mkPayment {
  paymentId : string;
  orderId : string;
  userId : string;
  amount : Z;
  currency : string;
  method : string;
  status : string;
  gatewayResponse : option Obj;
  cardLast4 : option string;
  upiId : option string;
  refundAmount : option Z;
  refundReason : option string;
  refundedAt : option Z;
  createdAt : Z;
  updatedAt : Z
}.

Definition method_enum : list string :=
  ["card"; "upi"; "netbanking"; "wallet"; "cod"].

Definition status_enum : list string :=
  ["initiated"; "processing"; "completed"; "failed"; "refunded"; "cancelled"].

(** What the service writes with [console.log] and [console.error]. *)
Inductive LogLine : Type :=
| LogInitiated (pid oid : string)       (* Payment initiated: .. for order .. *)
| LogConfirmed (isSuccess : bool) (pid : string)  (* Payment completed|failed: .. *)
| LogRefunded (pid : string) (amt : JsVal)        (* Payment refunded: .., amount: .. *)
| LogError (what : string).

(** The service: the payments collection and the console. *)
Record State : Type := mkState {
  payments : list Payment;
  console : list LogLine
}.

(** [Payment.findOne({ paymentId })]. *)
Fixpoint findOne (pid : string) (ps : list Payment) : option Payment :=
  match ps with
  | [] => None
  | p :: rest => if (paymentId p =? pid)%string then Some p else findOne pid rest
  end.

(** [payment.save()] of a loaded document. *)
Fixpoint save (p' : Payment) (ps : list Payment) : list Payment :=
  match ps with
  | [] => []
  | p :: rest =>
      if (paymentId p =? paymentId p')%string then p' :: rest
      else p :: save p' rest
  end.

Definition failed {A} (code : Z) (err : string) : Response A :=
  mkResponse code false err None.

(** The outcome of casting a value to the schema type [Number]. *)
Inductive Cast : Type :=
| CastError
| CastNull
| CastNum (n : Z).

Section Handlers.

(** [Number(s)] on a non-empty string, [None] when it is [NaN]: the one part
    of the number cast that comes from the language runtime. *)
Variable js_Number : string -> option Z.

Definition castNumber (v : JsVal) : Cast :=
  match v with
  | JUndefined | JNull => CastNull
  | JBool b => CastNum (if b then 1 else 0)
  | JNum n => CastNum n
  | JStr s =>
      if (s =? EmptyString)%string then CastNull
      else match js_Number s with
           | Some n => CastNum n
           | None => CastError
           end
  end.

(** [s.slice(-4)]. *)
Definition slice_last4 (s : string) : string :=
  substring (String.length s - 4) 4 s.

(** What [POST /initiate] reads besides the body. *)
Record InitEnv : Type := mkInitEnv {
  x_user_id : option string;
  init_now : Z;
  fresh_paymentId : string;        (* [pay_<uuid>], the schema default *)
  fresh_gatewayPaymentId : string  (* [mock_<uuid>] *)
}.

Record InitBody : Type := mkInitBody {
  b_orderId : option string;
  b_userId : option string;
  b_amount : JsVal;
  b_method : option string;
  b_cardNumber : option string;    (* [cardDetails?.number], a string *)
  b_upiId : option string
}.

(** The [data] of the 201 answer. *)
Record InitData : Type := mkInitData {
  d_paymentId : string;
  d_amount : Z;
  d_currency : string;
  d_status : string;
  d_gatewayPaymentId : string;
  d_redirectUrl : string;
  d_qrCode : option string
}.

(** [Payment.create]: the required paths, the [method] enum, the number cast
    and the unique index on [paymentId]. *)
Definition create (e : InitEnv) (b : InitBody) (ps : list Payment)
  : option Payment :=
  match b_orderId b, Js.str_or (b_userId b) (x_user_id e),
        castNumber (b_amount b), b_method b with
  | Some oid, Some uid, CastNum amt, Some m =>
      if negb (oid =? EmptyString)%string && negb (uid =? EmptyString)%string
         && includes method_enum m
         && match findOne (fresh_paymentId e) ps with
            | None => true
            | Some _ => false
            end
      then Some {| paymentId := fresh_paymentId e;
                   orderId := oid;
                   userId := uid;
                   amount := amt;
                   currency := "INR";
                   method := m;
                   status := "initiated";
                   gatewayResponse := None;
                   cardLast4 := option_map slice_last4 (b_cardNumber b);
                   upiId := b_upiId b;
                   refundAmount := None;
                   refundReason := None;
                   refundedAt := None;
                   createdAt := init_now e;
                   updatedAt := init_now e |}
      else None
  | _, _, _, _ => None
  end.

(** The handler of [app.post('/initiate')] on a body whose card number, if
    any, is a string; [Http.post_initiate] is the route on the card number
    as sent. *)
Definition initiate (e : InitEnv) (b : InitBody) (s : State)
  : Response InitData * State :=
  match create e b (payments s) with
  | None =>
      (failed 500 "Failed to initiate payment",
       mkState (payments s) (console s ++ [LogError "Initiate payment error:"]))
  | Some p =>
      let data :=
        {| d_paymentId := paymentId p;
           d_amount := amount p;
           d_currency := currency p;
           d_status := status p;
           d_gatewayPaymentId := fresh_gatewayPaymentId e;
           d_redirectUrl :=
             ("http://localhost:3000/payment-success?paymentId="
              ++ paymentId p)%string;
           d_qrCode :=
             if (method p =? "upi")%string
             then Some "upi://pay?pa=ecoharvest@upi&pn=EcoHarvest"
             else None |} in
      (mkResponse 201 true EmptyString (Some data),
       mkState (payments s ++ [p])
               (console s ++ [LogInitiated (paymentId p) (orderId p)]))
  end.

(** What [POST /confirm] draws from its environment. *)
Record ConfirmEnv : Type := mkConfirmEnv {
  isSuccess : bool;            (* [Math.random() > 0.1] *)
  fresh_transactionId : string;  (* [txn_<uuid>] *)
  confirm_now : Z
}.

Record ConfirmBody : Type := mkConfirmBody {
  c_paymentId : string;
  c_gatewayResponse : option Obj
}.

Record ConfirmData : Type := mkConfirmData {
  cd_paymentId : string;
  cd_orderId : string;
  cd_status : string;
  cd_amount : Z;
  cd_transactionId : string
}.

(** The payment as [POST /confirm] leaves it. *)
Definition confirmed (e : ConfirmEnv) (b : ConfirmBody) (p : Payment) : Payment :=
  let spread := match c_gatewayResponse b with Some o => o | None => [] end in
  {| paymentId := paymentId p;
     orderId := orderId p;
     userId := userId p;
     amount := amount p;
     currency := currency p;
     method := method p;
     status := if isSuccess e then "completed" else "failed";
     gatewayResponse :=
       Some (obj_set "processedAt" (MDate (confirm_now e))
              (obj_set "transactionId" (MStr (fresh_transactionId e))
                 (obj_set "mockStatus"
                    (MStr (if isSuccess e then "SUCCESS" else "FAILED"))
                    spread)));
     cardLast4 := cardLast4 p;
     upiId := upiId p;
     refundAmount := refundAmount p;
     refundReason := refundReason p;
     refundedAt := refundedAt p;
     createdAt := createdAt p;
     updatedAt := confirm_now e |}.

(** [app.post('/confirm')]. *)
Definition confirm (e : ConfirmEnv) (b : ConfirmBody) (s : State)
  : Response ConfirmData * State :=
  match findOne (c_paymentId b) (payments s) with
  | None => (failed 404 "Payment not found", s)
  | Some p =>
      let p' := confirmed e b p in
      let data :=
        {| cd_paymentId := paymentId p';
           cd_orderId := orderId p';
           cd_status := status p';
           cd_amount := amount p';
           cd_transactionId := fresh_transactionId e |} in
      (mkResponse 200 (isSuccess e)
         (if isSuccess e then "Payment successful" else "Payment failed")
         (Some data),
       mkState (save p' (payments s))
               (console s ++ [LogConfirmed (isSuccess e) (c_paymentId b)]))
  end.

Record RefundBody : Type := mkRefundBody {
  r_reason : option string;
  r_amount : JsVal
}.

Record RefundData : Type := mkRefundData {
  rd_paymentId : string;
  rd_refundAmount : JsVal;
  rd_status : string
}.

(** The payment after the four assignments of the refund handler, its
    [refundAmount] already cast. *)
Definition refunded (t : Z) (amt : option Z) (reason : option string)
    (p : Payment) : Payment :=
  {| paymentId := paymentId p;
     orderId := orderId p;
     userId := userId p;
     amount := amount p;
     currency := currency p;
     method := method p;
     status := "refunded";
     gatewayResponse := gatewayResponse p;
     cardLast4 := cardLast4 p;
     upiId := upiId p;
     refundAmount := amt;
     refundReason := reason;
     refundedAt := Some t;
     createdAt := createdAt p;
     updatedAt := t |}.

(** [app.post('/:paymentId/refund')].  A value that does not cast to a number
    makes [payment.save()] reject, which the handler answers with 500. *)
Definition refund (t : Z) (pid : string) (b : RefundBody) (s : State)
  : Response RefundData * State :=
  match findOne pid (payments s) with
  | None => (failed 404 "Payment not found", s)
  | Some p =>
      if negb (status p =? "completed")%string
      then (failed 400 "Only completed payments can be refunded", s)
      else
        let refundAmount := Js.or (r_amount b) (JNum (amount p)) in
        let saved (amt : option Z) :=
          let p' := refunded t amt (r_reason b) p in
          (mkResponse 200 true "Refund processed successfully"
             (Some {| rd_paymentId := paymentId p';
                      rd_refundAmount := refundAmount;
                      rd_status := status p' |}),
           mkState (save p' (payments s))
                   (console s ++ [LogRefunded pid refundAmount])) in
        match castNumber refundAmount with
        | CastNum amt => saved (Some amt)
        | CastNull => saved None
        | CastError =>
            (failed 500 "Failed to process refund",
             mkState (payments s) (console s ++ [LogError "Refund error:"]))
        end
  end.

End Handlers.

(** How many times the console reports the completion of a payment. *)
Definition completions (pid : string) (l : list LogLine) : nat :=
  List.length
    (filter (fun x => match x with
                      | LogConfirmed true q => (q =? pid)%string
                      | _ => false
                      end) l).

(** The payments recorded for an order. *)
Definition forOrder (oid : string) (ps : list Payment) : list Payment :=
  filter (fun p => (orderId p =? oid)%string) ps.

End PaymentService.


(** ** Inventory updates of the product service *)

Module ProductInventory.

(** The paths of [productSchema] that [updateInventory] reads or writes. *)
Record Product : Type := mkProduct {
  _id : string;
  vendorId : string;
  quantity : Z;
  lowStockThreshold : Z;
  status : string;
  updatedAt : Z
}.

(** The validator the schema declares on [quantity]:
    [min: [0, 'Quantity cannot be negative']]. *)
Definition quantity_valid (q : Z) : bool := 0 <=? q.

(** A message handed to [publishEvent]. *)
Record Event : Type := mkEvent {
  routingKey : string;
  ev_productId : string;
  ev_vendorId : string;
  ev_quantity : Z;
  timestamp : Z
}.

(** The service: the products collection, whether the broker channel is
    open, and the events published on it. *)
Record State : Type := mkState {
  products : list Product;
  channel : bool;
  published : list Event
}.

(** An update operator document. *)
Inductive Update : Type :=
| Inc (n : Z)     (* [{ $inc: { quantity: n } }] *)
| Set_ (n : Z).   (* [{ $set: { quantity: n } }] *)

Definition apply_update (u : Update) (t : Z) (p : Product) : Product :=
  let q := match u with
           | Inc n => quantity p + n
           | Set_ n => n
           end in
  mkProduct (_id p) (vendorId p) q (lowStockThreshold p) (status p) t.

(** [Product.findByIdAndUpdate(id, update, { new: true })]: validators are
    not run and no save hook fires. *)
Fixpoint findByIdAndUpdate (id : string) (u : Update) (t : Z)
    (ps : list Product) : option Product * list Product :=
  match ps with
  | [] => (None, [])
  | p :: rest =>
      if (_id p =? id)%string
      then let p' := apply_update u t p in (Some p', p' :: rest)
      else let (r, rest') := findByIdAndUpdate id u t rest in (r, p :: rest')
  end.

Fixpoint findById (id : string) (ps : list Product) : option Product :=
  match ps with
  | [] => None
  | p :: rest => if (_id p =? id)%string then Some p else findById id rest
  end.

(** [publishEvent]: nothing happens while the channel is not open. *)
Definition publishEvent (e : Event) (s : State) : State :=
  if channel s then mkState (products s) true (published s ++ [e]) else s.

Record InventoryBody : Type := mkInventoryBody {
  quantity_ : Z;                  (* [req.body.quantity] *)
  operation : option string
}.

(** The [data] of the answer. *)
Record InventoryData : Type := mkInventoryData {
  d_quantity : Z;
  d_status : string
}.

(** [exports.updateInventory] on the ObjectId [id] that [req.params.id] has
    been cast to, and on quantities that are whole numbers of a magnitude on
    which the addition of [$inc] is exact; the route with the cast is
    [Http.patch_inventory]. *)
Definition updateInventory (t : Z) (id : string) (b : InventoryBody)
    (s : State) : Response InventoryData * State :=
  let op := match operation b with Some o => o | None => "set" end in
  let update :=
    if (op =? "increment")%string then Inc (quantity_ b)
    else if (op =? "decrement")%string then Inc (- quantity_ b)
    else Set_ (quantity_ b) in
  match findByIdAndUpdate id update t (products s) with
  | (None, _) => (mkResponse 404 false "Product not found" None, s)
  | (Some product, ps) =>
      let s1 := mkState ps (channel s) (published s) in
      let s2 :=
        if (quantity product <=? lowStockThreshold product)
           && (0 <? quantity product)
        then publishEvent
               (mkEvent "inventory.low" (_id product) (vendorId product)
                  (quantity product) t) s1
        else s1 in
      (mkResponse 200 true "Inventory updated"
         (Some (mkInventoryData (quantity product) (status product))), s2)
  end.

End ProductInventory.

(** ** The broker client *)

Module Messaging.

(** A message on a queue: its body, how many times the broker has handed
    it to a consumer, and the [redelivered] flag the broker sets. *)
Record Message : Type := mkMessage {
  content : string;
  deliveries : nat;
  redelivered : bool
}.

(** A durable queue as [assertQueue(queue, { durable: true })] declares it:
    no dead-letter exchange is configured.  [ready] holds the messages
    waiting for delivery, head first; [dead_lettered] what has been moved to
    a dead-letter queue; [dropped] what the broker discarded. *)
Record Queue : Type := mkQueue {
  ready : list Message;
  acked : list Message;
  dead_lettered : list Message;
  dropped : list Message
}.

(** [channel.ack(msg)]. *)
Definition ack (m : Message) (rest : list Message) (q : Queue) : Queue :=
  mkQueue rest (acked q ++ [m]) (dead_lettered q) (dropped q).

(** [channel.nack(msg, allUpTo = false, requeue)]: a requeued message goes
    back to its place at the head of the queue, flagged as redelivered; with
    [requeue = false] and no dead-letter exchange the broker discards it. *)
Definition nack (m : Message) (requeue : bool) (rest : list Message)
    (q : Queue) : Queue :=
  if requeue
  then mkQueue (mkMessage (content m) (deliveries m) true :: rest)
               (acked q) (dead_lettered q) (dropped q)
  else mkQueue rest (acked q) (dead_lettered q) (dropped q ++ [m]).

Section Subscribe.

(** The parsed message body, [JSON.parse], and the subscriber's handler: a
    handler runs on the subscriber's state and either returns ([true]) or
    throws ([false]). *)
Variable Content : Type.
Variable JSON_parse : string -> option Content.
Variable St : Type.
Variable handler : Content -> Message -> St -> St * bool.

(** The callback [subscribe] passes to [channel.consume], run on the
    delivery of [msg]. *)
Definition on_message (msg : Message) (rest : list Message) (q : Queue)
    (st : St) : Queue * St :=
  match JSON_parse (content msg) with
  | None => (nack msg true rest q, st)
  | Some c =>
      let (st', ok) := handler c msg st in
      if ok then (ack msg rest q, st') else (nack msg true rest q, st')
  end.

(** One delivery: the broker hands the head of the queue to the consumer,
    and the callback runs to its end.  The broker may hand over further
    messages while a handler is still running; the model follows the
    messages one at a time. *)
Definition deliver (q : Queue) (st : St) : Queue * St :=
  match ready q with
  | [] => (q, st)
  | m :: rest =>
      on_message (mkMessage (content m) (S (deliveries m)) (redelivered m))
        rest q st
  end.

(** [n] deliveries in a row. *)
Fixpoint run (n : nat) (q : Queue) (st : St) : Queue * St :=
  match n with
  | O => (q, st)
  | S k => let (q', st') := deliver q st in run k q' st'
  end.

(** Processing the body [c] fails: it does not parse, or the handler throws
    on it at every delivery and in every state. *)
Definition always_fails (c : string) : Prop :=
  match JSON_parse c with
  | None => True
  | Some x => forall m st, snd (handler x m st) = false
  end.

End Subscribe.

End Messaging.


(** ** Queries: sorting, and the read routes *)

Module Mongo.

(** [.sort('-field')] on a numeric field: descending.  The database leaves
    the order of documents with equal keys open; here they keep the order of
    the collection. *)
Fixpoint insert_desc {A : Type} (key : A -> Z) (x : A) (l : list A) : list A :=
  match l with
  | [] => [x]
  | y :: rest =>
      if key y <=? key x then x :: l else y :: insert_desc key x rest
  end.

Definition sort_desc {A : Type} (key : A -> Z) (l : list A) : list A :=
  fold_right (insert_desc key) [] l.

(** [a] may come before [b] in a descending listing. *)
Definition not_older {A : Type} (key : A -> Z) (a b : A) : Prop :=
  key b <= key a.

End Mongo.

Module OrderQueries.
Import OrderModel.

(** The handler of [router.get('/:id')] on the ObjectId the parameter has
    been cast to; the route with the cast is [Http.get_order]. *)
Definition getOrderById (id : string) (db : Orders) : Response Order :=
  match findById id db with
  | None => mkResponse 404 false "Order not found" None
  | Some o => mkResponse 200 true EmptyString (Some o)
  end.

(** [router.get('/user/:userId')]:
    [Order.find({ customerId }).sort('-createdAt').lean()]. *)
Definition getOrdersByUser (userId : string) (db : Orders)
  : Response (list Order) :=
  mkResponse 200 true EmptyString
    (Some (Mongo.sort_desc createdAt
             (filter (fun o => match customerId o with
                               | Some c => (c =? userId)%string
                               | None => false
                               end) db))).

(** [router.get('/vendor/:vendorId')]: the filter ['items.vendorId'] matches
    an order when one of its items has that vendor. *)
Definition getOrdersByVendor (vendorId : string) (db : Orders)
  : Response (list Order) :=
  mkResponse 200 true EmptyString
    (Some (Mongo.sort_desc createdAt
             (filter (fun o => existsb (fun i => (i_vendorId i =? vendorId)%string)
                                 (items o)) db))).

(** The projection
    [.select('orderNumber status trackingNumber carrier shippedAt
    estimatedDelivery')], which keeps [_id]. *)
Record Tracking : Type := mkTracking {
  tr_id : string;
  tr_orderNumber : string;
  tr_status : string;
  tr_trackingNumber : option string;
  tr_carrier : option string;
  tr_shippedAt : option Z;
  tr_estimatedDelivery : option Z
}.

Definition select_tracking (o : Order) : Tracking :=
  mkTracking (_id o) (orderNumber o) (status o) (trackingNumber o) (carrier o)
    (shippedAt o) (estimatedDelivery o).

(** The handler of [router.get('/:id/tracking')] on the ObjectId the
    parameter has been cast to; the route with the cast is
    [Http.get_tracking]. *)
Definition getTracking (id : string) (db : Orders) : Response Tracking :=
  match findById id db with
  | None => mkResponse 404 false "Order not found" None
  | Some o => mkResponse 200 true EmptyString (Some (select_tracking o))
  end.

End OrderQueries.

Module PaymentQueries.
Import PaymentService.

(** [app.get('/:paymentId')]. *)
Definition getPayment (pid : string) (s : State) : Response Payment :=
  match findOne pid (payments s) with
  | None => mkResponse 404 false "Payment not found" None
  | Some p => mkResponse 200 true EmptyString (Some p)
  end.

(** [app.get('/user/:userId')]:
    [Payment.find({ userId }).sort('-createdAt').lean()]. *)
Definition getPaymentsByUser (uid : string) (s : State)
  : Response (list Payment) :=
  mkResponse 200 true EmptyString
    (Some (Mongo.sort_desc createdAt
             (filter (fun p => (userId p =? uid)%string) (payments s)))).

(** The requests that write to the payments collection, and the service
    serving a sequence of them. *)
Inductive Request : Type :=
| PostInitiate (e : InitEnv) (b : InitBody)
| PostConfirm (e : ConfirmEnv) (b : ConfirmBody)
| PostRefund (t : Z) (pid : string) (b : RefundBody).

Definition handle (js_Number : string -> option Z) (r : Request) (s : State)
  : State :=
  match r with
  | PostInitiate e b => snd (initiate js_Number e b s)
  | PostConfirm e b => snd (confirm e b s)
  | PostRefund t pid b => snd (refund js_Number t pid b s)
  end.

Definition serve (js_Number : string -> option Z) (rs : list Request)
    (s : State) : State :=
  fold_left (fun st r => handle js_Number r st) rs s.

(** The fields of a payment that are given at initiation. *)
Definition identity (p : Payment)
  : string * string * string * Z * string * string * Z :=
  (paymentId p, orderId p, userId p, amount p, currency p, method p,
   createdAt p).

End PaymentQueries.

Module ProductModel.
Import ProductInventory.

(** The virtual [isLowStock] of [productSchema]. *)
Definition isLowStock (p : Product) : bool :=
  (quantity p <=? lowStockThreshold p) && (0 <? quantity p).

End ProductModel.

(** ** Publishing on the broker *)

Module Publisher.
Import PaymentService.

(** What has been handed to the channel. *)
Inductive Sent : Type :=
| ToExchange (exchange routingKey : string) (body : Obj)
| ToQueue (queue : string) (body : Obj).

(** The [RabbitMQ] client: the [connected] flag, the exchanges and queues
    asserted on the channel, what was sent, and the errors logged. *)
Record Client : Type := mkClient {
  connected : bool;
  exchanges : list string;
  queues : list string;
  sent : list Sent;
  errors : list string
}.

(** A call returns, or throws after logging. *)
Inductive Outcome : Type :=
| Returned (c : Client)
| Thrown (c : Client).

(** [publish(exchange, routingKey, message)]; [ts] is
    [new Date().toISOString()] and [uuid] the [uuid.v4()] of this call.  The
    body is the object given to [JSON.stringify]. *)
Definition publish (ts uuid : string) (exchange routingKey : string)
    (message : Obj) (c : Client) : Outcome :=
  if negb (connected c)
  then Thrown (mkClient (connected c) (exchanges c) (queues c) (sent c)
                 (errors c ++ ["Failed to publish message:"]))
  else
    let body := obj_set "correlationId" (MStr uuid)
                  (obj_set "timestamp" (MStr ts) message) in
    Returned (mkClient (connected c) (exchanges c ++ [exchange]) (queues c)
                (sent c ++ [ToExchange exchange routingKey body]) (errors c)).

(** [sendToQueue(queue, message)]. *)
Definition sendToQueue (ts : string) (queue : string) (message : Obj)
    (c : Client) : Outcome :=
  if negb (connected c)
  then Thrown (mkClient (connected c) (exchanges c) (queues c) (sent c)
                 (errors c ++ ["Failed to send to queue:"]))
  else
    let body := obj_set "timestamp" (MStr ts) message in
    Returned (mkClient (connected c) (exchanges c) (queues c ++ [queue])
                (sent c ++ [ToQueue queue body]) (errors c)).

End Publisher.


(** ** Requests as they arrive

    The handlers above work on values of the types their schemas declare:
    an [_id] is an ObjectId, a subtotal is a whole number, a card number is
    a string.  The routes of this module take the request as it arrives: a
    route parameter is a string that is first cast to an ObjectId, and the
    body fields that the handler itself computes with are raw JSON values. *)

Module ObjectId.

(** How the bson library reads a string of 24 hexadecimal digits, without
    regard to case.  Which other strings it accepts depends on its version,
    so the routes take the cast as a parameter; this one serves in the
    examples. *)
Definition is_hex (c : ascii) : bool :=
  let n := nat_of_ascii c in
  ((48 <=? n) && (n <=? 57) || (65 <=? n) && (n <=? 70)
   || (97 <=? n) && (n <=? 102))%nat.

Definition lower (c : ascii) : ascii :=
  let n := nat_of_ascii c in
  if ((65 <=? n) && (n <=? 70))%nat then ascii_of_nat (n + 32) else c.

Fixpoint all_hex (s : string) : bool :=
  match s with
  | EmptyString => true
  | String c rest => is_hex c && all_hex rest
  end.

Fixpoint to_lower (s : string) : string :=
  match s with
  | EmptyString => EmptyString
  | String c rest => String (lower c) (to_lower rest)
  end.

Definition cast (s : string) : option string :=
  if ((String.length s =? 24)%nat && all_hex s)%bool
  then Some (to_lower s) else None.

End ObjectId.

Module Http.
Import Js OrderModel.

Section Ids.

(** Mongoose's cast of [req.params.id] to an ObjectId: [None] is a
    CastError, which rejects the query and is answered 500 by the [catch] of
    the route; otherwise the ObjectId, written as the [_id] of a stored
    document is. *)
Variable castObjectId : string -> option string.

(** [router.put('/:id/status')]. *)
Definition put_status (t : Z) (param : string) (b : OrderRoutes.StatusBody)
    (db : Orders) : Response Order * Orders :=
  match castObjectId param with
  | None => (OrderRoutes.failed 500 "Failed to update order", db)
  | Some id => OrderRoutes.updateStatus t id b db
  end.

(** [router.post('/:id/cancel')]. *)
Definition post_cancel (t : Z) (param : string) (reason : option string)
    (db : Orders) : Response Order * Orders :=
  match castObjectId param with
  | None => (OrderRoutes.failed 500 "Failed to cancel order", db)
  | Some id => OrderRoutes.cancelOrder t id reason db
  end.

(** [router.get('/:id')]. *)
Definition get_order (param : string) (db : Orders) : Response Order :=
  match castObjectId param with
  | None => OrderRoutes.failed 500 "Failed to fetch order"
  | Some id => OrderQueries.getOrderById id db
  end.

(** [router.get('/:id/tracking')]. *)
Definition get_tracking (param : string) (db : Orders)
  : Response OrderQueries.Tracking :=
  match castObjectId param with
  | None => OrderRoutes.failed 500 "Failed to get tracking info"
  | Some id => OrderQueries.getTracking id db
  end.

(** [router.patch('/:id/inventory')]. *)
Definition patch_inventory (t : Z) (param : string)
    (b : ProductInventory.InventoryBody) (s : ProductInventory.State)
  : Response ProductInventory.InventoryData * ProductInventory.State :=
  match castObjectId param with
  | None => (mkResponse 500 false "Failed to update inventory" None, s)
  | Some id => ProductInventory.updateInventory t id b s
  end.

End Ids.

(** *** [POST /initiate] with the card number as sent *)

(** The body, [ri_cardNumber] being the value of [cardDetails?.number]. *)
Record RawInitBody : Type := mkRawInitBody {
  ri_orderId : option string;
  ri_userId : option string;
  ri_amount : JsVal;
  ri_method : option string;
  ri_cardNumber : JsVal;
  ri_upiId : option string
}.

(** [cardDetails?.number?.slice(-4)] up to the call of [slice]: an absent or
    null number gives [undefined], a string is sliced, and a number or a
    boolean has no [slice] to call, which throws ([None]). *)
Definition read_card (v : JsVal) : option (option string) :=
  match v with
  | JUndefined | JNull => Some None
  | JStr s => Some (Some s)
  | JBool _ | JNum _ => None
  end.

(** [app.post('/initiate')]. *)
Definition post_initiate (js_Number : string -> option Z)
    (e : PaymentService.InitEnv) (rb : RawInitBody) (s : PaymentService.State)
  : Response PaymentService.InitData * PaymentService.State :=
  match read_card (ri_cardNumber rb) with
  | None =>
      (PaymentService.failed 500 "Failed to initiate payment",
       PaymentService.mkState (PaymentService.payments s)
         (PaymentService.console s
          ++ [PaymentService.LogError "Initiate payment error:"]))
  | Some card =>
      PaymentService.initiate js_Number e
        (PaymentService.mkInitBody (ri_orderId rb) (ri_userId rb)
           (ri_amount rb) (ri_method rb) card (ri_upiId rb)) s
  end.

(** *** [POST /] with the items as sent

    The route adds up [item.subtotal] with the [+] of the language before
    any schema sees the values, so a subtotal sent as a string turns the sum
    into a string.  The arithmetic is modelled on whole numbers of magnitude
    up to [bound], on which the double arithmetic of the route, including
    [Math.round(subtotal * 0.18)], is exact, and on strings of decimal
    digits; a request that leads outside of these is not modelled, and the
    route is [None] on it. *)

Definition bound : Z := 10 ^ 12.

Definition in_range (n : Z) : bool := Z.abs n <=? bound.

(** [String(n)] and [Number(s)] for whole numbers and strings of digits. *)
Definition show (n : Z) : string := NilZero.string_of_int (Z.to_int n).

Definition read (s : string) : option Z :=
  option_map Z.of_uint (NilZero.uint_of_string s).

(** A value of the running sum: a number, [NaN] or a string. *)
Inductive JsSum : Type :=
| SNum (n : Z)
| SNaN
| SStr (s : string).

Definition checked (n : Z) : option JsSum :=
  if in_range n then Some (SNum n) else None.

Definition to_text (v : JsVal) : option string :=
  match v with
  | JUndefined => Some "undefined"
  | JNull => Some "null"
  | JBool b => Some (if b then "true" else "false")
  | JNum n => if in_range n then Some (show n) else None
  | JStr s => Some s
  end.

(** [sum + item.subtotal]. *)
Definition plus (sum : JsSum) (v : JsVal) : option JsSum :=
  match sum, v with
  | SStr a, _ => option_map (fun t => SStr (a ++ t)%string) (to_text v)
  | SNum a, JStr s => Some (SStr (show a ++ s)%string)
  | SNaN, JStr s => Some (SStr ("NaN" ++ s)%string)
  | SNum a, JNum b => if in_range b then checked (a + b) else None
  | SNum a, JBool b => checked (a + if b then 1 else 0)
  | SNum a, JNull => Some (SNum a)
  | SNum a, JUndefined => Some SNaN
  | SNaN, _ => Some SNaN
  end.

(** [items.reduce((sum, item) => sum + item.subtotal, 0)]. *)
Fixpoint reduce (sum : JsSum) (vs : list JsVal) : option JsSum :=
  match vs with
  | [] => Some sum
  | v :: rest =>
      match plus sum v with
      | Some sum' => reduce sum' rest
      | None => None
      end
  end.

(** The number a comparison or a product reads from the subtotal. *)
Definition to_number (x : JsSum) : option JsSum :=
  match x with
  | SStr s => match read s with
              | Some n => checked n
              | None => None
              end
  | _ => Some x
  end.

(** [x + n] for a number [n] the route has computed. *)
Definition plus_number (x n : JsSum) : JsSum :=
  match x, n with
  | SStr a, SNum b => SStr (a ++ show b)%string
  | SStr a, SNaN => SStr (a ++ "NaN")%string
  | SStr a, SStr b => SStr (a ++ b)%string
  | SNum a, SNum b => SNum (a + b)
  | SNum a, SStr b => SStr (show a ++ b)%string
  | SNum _, SNaN => SNaN
  | SNaN, SStr b => SStr ("NaN" ++ b)%string
  | SNaN, _ => SNaN
  end.

(** What a schema path of type Number makes of a value. *)
Inductive Outcome (A : Type) : Type :=
| Unmodelled
| Rejected
| Value (a : A).
Arguments Unmodelled {A}.
Arguments Rejected {A}.
Arguments Value {A}.

Definition cast_sum (x : JsSum) : Outcome Z :=
  match x with
  | SNum n => Value n
  | SNaN => Rejected
  | SStr s => match read s with
              | Some n => if in_range n then Value n else Unmodelled
              | None => Unmodelled
              end
  end.

(** The same for a required path given a JSON value. *)
Definition cast_required (v : JsVal) : Outcome Z :=
  match v with
  | JUndefined | JNull => Rejected
  | JBool b => Value (if b then 1 else 0)
  | JNum n => if in_range n then Value n else Unmodelled
  | JStr s =>
      if (s =? EmptyString)%string then Rejected
      else match read s with
           | Some n => if in_range n then Value n else Unmodelled
           | None => Unmodelled
           end
  end.

(** An item of the body: its [subtotal] as sent, its other fields of the
    type the item schema declares. *)
Record RawItem : Type := mkRawItem {
  r_productId : string;
  r_productName : string;
  r_productImage : option string;
  r_vendorId : string;
  r_vendorName : option string;
  r_quantity : Z;
  r_price : Z;
  r_discount : Z;
  r_subtotal : JsVal
}.

(** An element of the [items] array: [null], on which reading [.subtotal]
    throws, or an item. *)
Inductive Element : Type :=
| ENull
| EItem (r : RawItem).

Record RawCreateBody : Type := mkRawCreateBody {
  rc_customerId : option string;
  rc_customerEmail : option string;
  rc_customerName : option string;
  rc_items : option (list Element);
  rc_shippingAddress : option Address;
  rc_billingAddress : option Address;
  rc_paymentMethod : option string;
  rc_notes : option string
}.

Fixpoint objects (els : list Element) : option (list RawItem) :=
  match els with
  | [] => Some []
  | ENull :: _ => None
  | EItem r :: rest => option_map (cons r) (objects rest)
  end.

Definition cast_item (r : RawItem) : Outcome OrderItem :=
  match cast_required (r_subtotal r) with
  | Value n =>
      Value (mkItem (r_productId r) (r_productName r) (r_productImage r)
               (r_vendorId r) (r_vendorName r) (r_quantity r) (r_price r)
               (r_discount r) n)
  | Rejected => Rejected
  | Unmodelled => Unmodelled
  end.

(** The items as the schema casts them; one that is rejected fails the
    whole document. *)
Fixpoint cast_items (rs : list RawItem) : Outcome (list OrderItem) :=
  match rs with
  | [] => Value []
  | r :: rest =>
      match cast_item r, cast_items rest with
      | Unmodelled, _ | _, Unmodelled => Unmodelled
      | Rejected, _ | _, Rejected => Rejected
      | Value i, Value its => Value (i :: its)
      end
  end.

Definition typed_body (rb : RawCreateBody) (its : list OrderItem)
  : OrderRoutes.CreateBody :=
  OrderRoutes.mkCreateBody (rc_customerId rb) (rc_customerEmail rb)
    (rc_customerName rb) (Some its) (rc_shippingAddress rb)
    (rc_billingAddress rb) (rc_paymentMethod rb) (rc_notes rb).

(** The document of [Order.create] with the four amounts the route has
    computed, after their cast. *)
Definition set_amounts (o : Order) (sub ship gst total : Z) : Order :=
  mkOrder (_id o) (orderNumber o) (customerId o) (customerEmail o)
    (customerName o) (items o) (shippingAddress o) (billingAddress o)
    sub ship gst (discount o) total
    (status o) (paymentMethod o) (paymentStatus o) (paymentId o)
    (orderTime o) (confirmedAt o) (shippedAt o) (deliveredAt o)
    (cancelledAt o) (trackingNumber o) (carrier o) (estimatedDelivery o)
    (notes o) (cancellationReason o) (createdAt o) (updatedAt o).

(** [router.post('/')]. *)
Definition post_order (e : OrderRoutes.Env) (rb : RawCreateBody) (db : Orders)
  : option (Response Order * Orders) :=
  let refused := (OrderRoutes.failed 500 "Failed to create order", db) in
  match rc_items rb with
  | None => Some refused
  | Some els =>
      match objects els with
      | None => Some refused
      | Some raws =>
          match reduce (SNum 0) (map r_subtotal raws) with
          | None => None
          | Some subtotal =>
              match to_number subtotal with
              | None => None
              | Some number =>
                  let shippingCost :=
                    match number with
                    | SNum n => OrderRoutes.shipping_for n
                    | _ => 50
                    end in
                  let tax :=
                    match number with
                    | SNum n => SNum (OrderRoutes.gst_for n)
                    | _ => SNaN
                    end in
                  let totalAmount :=
                    plus_number (plus_number subtotal (SNum shippingCost)) tax in
                  match cast_items raws, cast_sum subtotal, cast_sum tax,
                        cast_sum totalAmount with
                  | Value its, Value sub, Value gst, Value total =>
                      let o :=
                        set_amounts
                          (OrderRoutes.new_order e (typed_body rb its) its)
                          sub shippingCost gst total in
                      if validate o && negb (duplicate_key o db)
                      then Some (mkResponse 201 true "Order placed successfully"
                                   (Some o), db ++ [o])
                      else Some refused
                  | Unmodelled, _, _, _ | _, Unmodelled, _, _
                  | _, _, Unmodelled, _ | _, _, _, Unmodelled => None
                  | _, _, _, _ => Some refused
                  end
              end
          end
      end
  end.

(** A body of the typed routes as a request: every subtotal a number. *)
Definition raw_item (i : OrderItem) : RawItem :=
  mkRawItem (i_productId i) (i_productName i) (i_productImage i)
    (i_vendorId i) (i_vendorName i) (i_quantity i) (i_price i) (i_discount i)
    (JNum (i_subtotal i)).

Definition raw_body (b : OrderRoutes.CreateBody) : RawCreateBody :=
  mkRawCreateBody (OrderRoutes.b_customerId b) (OrderRoutes.b_customerEmail b)
    (OrderRoutes.b_customerName b)
    (option_map (map (fun i => EItem (raw_item i))) (OrderRoutes.b_items b))
    (OrderRoutes.b_shippingAddress b) (OrderRoutes.b_billingAddress b)
    (OrderRoutes.b_paymentMethod b) (OrderRoutes.b_notes b).

End Http.


(** ** The statements of the specification

    Each definition puts one sentence of the specification on the handlers
    above, in the specification's own terms. *)

Module Spec.

(** The transition table of the specification, section 4.1, in its words:
    Pending to PendingPayment or Confirmed; PendingPayment to Confirmed or
    Cancelled; Confirmed, Processing, Shipped, OutForDelivery, Delivered in
    that order; Pending, PendingPayment, Confirmed, Processing to Cancelled;
    Delivered to Refunded. *)
Definition transition_table : list (string * string) :=
  [("Pending", "Pending Payment"); ("Pending", "Confirmed");
   ("Pending Payment", "Confirmed"); ("Pending Payment", "Cancelled");
   ("Confirmed", "Processing"); ("Processing", "Shipped");
   ("Shipped", "Out for Delivery"); ("Out for Delivery", "Delivered");
   ("Pending", "Cancelled"); ("Confirmed", "Cancelled");
   ("Processing", "Cancelled"); ("Delivered", "Refunded")].

Definition in_table (from to : string) : bool :=
  existsb (fun p => (fst p =? from)%string && (snd p =? to)%string)
    transition_table.

(** The statuses the specification says a cancel request is refused in. *)
Definition not_cancellable : list string :=
  ["Shipped"; "Out for Delivery"; "Delivered"; "Cancelled"; "Refunded"].

(** An update outside the transition table is refused with 409 and the
    collection is left as it was. *)
Definition transition_table_enforced : Prop :=
  forall (t : Z) (id : string) (b : OrderRoutes.StatusBody)
         (db : OrderModel.Orders) (o : OrderModel.Order),
    OrderModel.findById id db = Some o ->
    in_table (OrderModel.status o) (OrderRoutes.s_status b)
      = false ->
    res_code (fst (OrderRoutes.updateStatus t id b db)) = 409
    /\ snd (OrderRoutes.updateStatus t id b db) = db.

(** A cancel request for an order that is Shipped, Out for Delivery,
    Delivered, Cancelled or Refunded is refused with 400 and the collection
    is left as it was. *)
Definition cancel_refused_when_not_cancellable : Prop :=
  forall (t : Z) (id : string) (reason : option string)
         (db : OrderModel.Orders) (o : OrderModel.Order),
    OrderModel.findById id db = Some o ->
    Js.includes not_cancellable (OrderModel.status o) = true ->
    res_code (fst (OrderRoutes.cancelOrder t id reason db)) = 400
    /\ snd (OrderRoutes.cancelOrder t id reason db) = db.

(** Creating an order from an empty items list is refused with 400 and no
    order is stored. *)
Definition empty_cart_refused : Prop :=
  forall (e : OrderRoutes.Env) (b : OrderRoutes.CreateBody)
         (db : OrderModel.Orders),
    OrderRoutes.b_items b = Some [] ->
    res_code (fst (OrderRoutes.createOrder e b db)) = 400
    /\ snd (OrderRoutes.createOrder e b db) = db.

(** A confirm call on a payment that is completed changes nothing. *)
Definition confirm_idempotent : Prop :=
  forall (e : PaymentService.ConfirmEnv) (b : PaymentService.ConfirmBody)
         (s : PaymentService.State) (p : PaymentService.Payment),
    PaymentService.findOne (PaymentService.c_paymentId b)
      (PaymentService.payments s) = Some p ->
    PaymentService.status p = "completed" ->
    snd (PaymentService.confirm e b s) = s.

(** An initiate call for an order that has a payment in status initiated or
    processing stores no further payment. *)
Definition initiate_idempotent : Prop :=
  forall (js_Number : string -> option Z) (e : PaymentService.InitEnv)
         (b : PaymentService.InitBody) (s : PaymentService.State)
         (p : PaymentService.Payment),
    In p (PaymentService.payments s) ->
    PaymentService.b_orderId b = Some (PaymentService.orderId p) ->
    Js.includes ["initiated"; "processing"] (PaymentService.status p) = true ->
    PaymentService.payments (snd (PaymentService.initiate js_Number e b s))
    = PaymentService.payments s.

(** A refund that is answered 200 asked for no more than the amount of the
    payment. *)
Definition refund_bounded_by_amount : Prop :=
  forall (js_Number : string -> option Z) (t : Z) (pid : string)
         (reason : option string) (n : Z) (s : PaymentService.State)
         (p : PaymentService.Payment),
    PaymentService.findOne pid (PaymentService.payments s) = Some p ->
    res_code (fst (PaymentService.refund js_Number t pid
                     (PaymentService.mkRefundBody reason (Js.JNum n)) s)) = 200 ->
    n <= PaymentService.amount p.

(** A message whose processing fails is delivered at most twice, the
    delivery and one redelivery: however long the consumer runs, no message
    waiting on the queue has been delivered more often. *)
Definition redelivered_at_most_once : Prop :=
  forall (Content : Type) (JSON_parse : string -> option Content)
         (St : Type) (handler : Content -> Messaging.Message -> St -> St * bool)
         (n : nat) (m : Messaging.Message) (st : St),
    Messaging.always_fails Content JSON_parse St handler (Messaging.content m) ->
    Messaging.deliveries m = 0%nat ->
    forall m',
      In m' (Messaging.ready
               (fst (Messaging.run Content JSON_parse St handler n
                       (Messaging.mkQueue [m] [] [] []) st))) ->
      (Messaging.deliveries m' <= 2)%nat.

End Spec.


(** ** Concrete documents and requests *)

Module Samples.

(** Two apples at 100 each. *)
Definition apples : OrderModel.OrderItem :=
  OrderModel.mkItem "prod_1" "Apples" None "vend_1" None 2 100 0 200.

Definition env1 : OrderRoutes.Env :=
  OrderRoutes.mkEnv (Some "user_1") 1000 "665f00000000000000000001"
    "ECO-1000-ABC123".

Definition env2 : OrderRoutes.Env :=
  OrderRoutes.mkEnv (Some "user_1") 2000 "665f00000000000000000002"
    "ECO-2000-DEF456".

(** A checkout of [its] by card, customer taken from the header. *)
Definition cart (its : option (list OrderModel.OrderItem))
  : OrderRoutes.CreateBody :=
  OrderRoutes.mkCreateBody None None None its None None (Some "card") None.

(** The order [env1] creates from the apples, and the same order later in
    its life. *)
Definition order1 : OrderModel.Order :=
  OrderRoutes.new_order env1 (cart (Some [apples])) [apples].

Definition delivered1 : OrderModel.Order :=
  OrderModel.set_status "Delivered" order1.

Definition refunded1 : OrderModel.Order :=
  OrderModel.set_status "Refunded" order1.

Definition shipped1 : OrderModel.Order :=
  OrderModel.set_status "Shipped" order1.

(** [Number(s)] for the requests below, none of which carries a string
    where a number is read. *)
Definition no_number (s : string) : option Z := None.

(** A card payment of 286 for order [ord_1], as [POST /initiate] stores it. *)
Definition initBody1 : PaymentService.InitBody :=
  PaymentService.mkInitBody (Some "ord_1") (Some "user_1") (Js.JNum 286)
    (Some "card") (Some "4111111111111111") None.

Definition initEnv1 : PaymentService.InitEnv :=
  PaymentService.mkInitEnv None 1000 "pay_1" "mock_1".

Definition initEnv2 : PaymentService.InitEnv :=
  PaymentService.mkInitEnv None 1500 "pay_2" "mock_2".

Definition empty : PaymentService.State := PaymentService.mkState [] [].

Definition initiated1 : PaymentService.State :=
  snd (PaymentService.initiate no_number initEnv1 initBody1 empty).

(** The gateway evidence sent with both confirm calls. *)
Definition evidence : PaymentService.ConfirmBody :=
  PaymentService.mkConfirmBody "pay_1"
    (Some [("gatewayRef", PaymentService.MStr "gw_77")]).

Definition success_at (t : Z) (txn : string) : PaymentService.ConfirmEnv :=
  PaymentService.mkConfirmEnv true txn t.

Definition failure_at (t : Z) (txn : string) : PaymentService.ConfirmEnv :=
  PaymentService.mkConfirmEnv false txn t.

Definition completed1 : PaymentService.State :=
  snd (PaymentService.confirm (success_at 2000 "txn_1") evidence initiated1).

(** The payment of [completed1]. *)
Definition paid1 : PaymentService.Payment :=
  PaymentService.mkPayment "pay_1" "ord_1" "user_1" 286 "INR" "card"
    "completed"
    (Some [("gatewayRef", PaymentService.MStr "gw_77");
           ("mockStatus", PaymentService.MStr "SUCCESS");
           ("transactionId", PaymentService.MStr "txn_1");
           ("processedAt", PaymentService.MDate 2000)])
    (Some "1111") None None None None 1000 2000.

(** Three units of a product in stock, the broker channel open. *)
Definition stock3 : ProductInventory.State :=
  ProductInventory.mkState
    [ProductInventory.mkProduct "prod_1" "vend_1" 3 10 "In Stock" 1000]
    true [].

(** A message whose handler throws on every delivery, alone on its queue. *)
Definition poison : Messaging.Message :=
  Messaging.mkMessage "order.created ord_1" 0 false.

Definition queue1 : Messaging.Queue := Messaging.mkQueue [poison] [] [] [].

Definition parse_any (s : string) : option string := Some s.

Definition always_throws (c : string) (m : Messaging.Message) (st : unit)
  : unit * bool := (st, false).

End Samples.


Module MoreSamples.
Import Samples.

(** A second item, of another vendor, and a cash-on-delivery checkout. *)
Definition pears : OrderModel.OrderItem :=
  OrderModel.mkItem "prod_2" "Pears" None "vend_2" None 1 520 0 520.

Definition cod_cart (its : option (list OrderModel.OrderItem))
  : OrderRoutes.CreateBody :=
  OrderRoutes.mkCreateBody (Some "user_2") None None its None None None None.

Definition order2 : OrderModel.Order :=
  OrderRoutes.new_order env2 (cod_cart (Some [pears])) [pears].

(** A checkout nobody is named for. *)
Definition anonymous : OrderRoutes.Env :=
  OrderRoutes.mkEnv None 1000 "665f00000000000000000003" "ECO-1000-XYZ789".

Definition ship_body : OrderRoutes.StatusBody :=
  OrderRoutes.mkStatusBody "Shipped" (Some "TRACK-9") (Some "BlueDart").

(** Twelve units of a product whose low-stock threshold is ten, next to a
    product of another vendor. *)
Definition stock12 : ProductInventory.State :=
  ProductInventory.mkState
    [ProductInventory.mkProduct "prod_1" "vend_1" 12 10 "In Stock" 1000;
     ProductInventory.mkProduct "prod_2" "vend_2" 40 10 "In Stock" 1000]
    true [].

(** A handler that accepts every message and counts it. *)
Definition always_returns (c : string) (m : Messaging.Message) (st : nat)
  : nat * bool := (S st, true).

Definition parse_none (s : string) : option string := None.

End MoreSamples.


Module RequestSamples.
Import Samples.

(** The id of [order1] as a client may write it, in upper case. *)
Definition order1_param : string := "665F00000000000000000001".

(** The apples with their subtotal sent as a string. *)
Definition apples_as_text : Http.RawItem :=
  Http.mkRawItem "prod_1" "Apples" None "vend_1" None 2 100 0 (Js.JStr "200").

Definition text_cart : Http.RawCreateBody :=
  Http.mkRawCreateBody None None None (Some [Http.EItem apples_as_text])
    None None (Some "card") None.

(** An initiation whose card number is sent as a string, and one whose card
    number is sent as a number. *)
Definition card_as_text : Http.RawInitBody :=
  Http.mkRawInitBody (Some "ord_1") (Some "user_1") (Js.JNum 286)
    (Some "card") (Js.JStr "4111111111111111") None.

Definition card_as_number : Http.RawInitBody :=
  Http.mkRawInitBody (Some "ord_1") (Some "user_1") (Js.JNum 286)
    (Some "card") (Js.JNum 4111111111111111) None.

(** Two products under ObjectIds. *)
Definition shelf : ProductInventory.State :=
  ProductInventory.mkState
    [ProductInventory.mkProduct "665f000000000000000000a1" "vend_1" 12 10
       "In Stock" 1000;
     ProductInventory.mkProduct "665f000000000000000000a2" "vend_2" 40 10
       "In Stock" 1000]
    true [].

End RequestSamples.


(** * Properties of the order routes *)

Section OrderFacts.
Import OrderModel OrderRoutes.

Lemma fold_subtotal_acc (its : list OrderItem) (acc : Z) :
  fold_left (fun sum item => sum + i_subtotal item) its acc
  = acc + sum_subtotals its.
Proof.
  revert acc; induction its as [|i its IH]; intro acc; simpl.
  - lia.
  - rewrite IH. lia.
Qed.

Lemma reduce_subtotal_sum (its : list OrderItem) :
  reduce_subtotal its = sum_subtotals its.
Proof. unfold reduce_subtotal. rewrite fold_subtotal_acc. lia. Qed.

Lemma findById_id (id : string) (db : Orders) (o : Order) :
  findById id db = Some o -> _id o = id.
Proof.
  induction db as [|x db IH]; simpl; [discriminate|].
  destruct (String.eqb_spec (_id x) id) as [E|E]; [|exact IH].
  intro H; injection H as <-; exact E.
Qed.

Lemma findById_app (id : string) (db l : Orders) (o : Order) :
  findById id db = Some o -> findById id (db ++ l) = Some o.
Proof.
  induction db as [|x db IH]; simpl; [discriminate|].
  destruct (_id x =? id)%string; auto.
Qed.

Lemma findById_app_fresh (id : string) (db : Orders) (o : Order) :
  findById id db = None -> _id o = id -> findById id (db ++ [o]) = Some o.
Proof.
  intros H E. induction db as [|x db IH]; simpl in *.
  - rewrite E, String.eqb_refl. reflexivity.
  - destruct (_id x =? id)%string; [discriminate|auto].
Qed.

Lemma duplicate_key_fresh (o : Order) (db : Orders) :
  duplicate_key o db = false -> findById (_id o) db = None.
Proof.
  unfold duplicate_key. induction db as [|x db IH]; simpl; [reflexivity|].
  intro H. apply orb_false_iff in H as [H1 H2].
  apply orb_false_iff in H1 as [H1 _]. rewrite H1. auto.
Qed.

(** Reading back after a write: the written document is found under its own
    [_id] when one was there, and every other [_id] reads as before. *)
Lemma findById_store_same (o' : Order) (db : Orders) (o : Order) :
  findById (_id o') db = Some o -> findById (_id o') (store o' db) = Some o'.
Proof.
  induction db as [|x db IH]; simpl; [discriminate|].
  destruct (_id x =? _id o')%string eqn:E; simpl.
  - intros _. rewrite String.eqb_refl. reflexivity.
  - rewrite E. exact IH.
Qed.

Lemma findById_store_other (id : string) (o' : Order) (db : Orders) :
  _id o' <> id -> findById id (store o' db) = findById id db.
Proof.
  intro N. induction db as [|x db IH]; simpl; [reflexivity|].
  destruct (String.eqb_spec (_id x) (_id o')) as [E|E]; simpl.
  - destruct (String.eqb_spec (_id o') id) as [F|F]; [contradiction|].
    destruct (String.eqb_spec (_id x) id) as [G|G]; [congruence|reflexivity].
  - destruct (_id x =? id)%string; auto.
Qed.

Lemma store_absent (o' : Order) (db : Orders) :
  findById (_id o') db = None -> store o' db = db.
Proof.
  induction db as [|x db IH]; simpl; [reflexivity|].
  destruct (_id x =? _id o')%string; [discriminate|].
  intro H. rewrite IH by exact H. reflexivity.
Qed.

(** A [$set] of the status routes leaves identity and amounts alone. *)
Lemma apply_set_keeps (o : Order) (f : SetField) :
  _id (apply_set o f) = _id o /\ totals (apply_set o f) = totals o.
Proof. destruct f; split; reflexivity. Qed.

Lemma fold_apply_set_keeps (l : list SetField) (o : Order) :
  _id (fold_left apply_set l o) = _id o
  /\ totals (fold_left apply_set l o) = totals o.
Proof.
  revert o; induction l as [|f l IH]; intro o; simpl; [split; reflexivity|].
  destruct (IH (apply_set o f)) as [A B].
  destruct (apply_set_keeps o f) as [C D].
  split; congruence.
Qed.

Lemma updateData_status (t : Z) (b : StatusBody) (o : Order) :
  status (fold_left apply_set (updateData t b) o) = s_status b.
Proof.
  unfold updateData, if_truthy.
  destruct (s_status b =? "Confirmed")%string,
           (s_status b =? "Shipped")%string,
           (s_status b =? "Delivered")%string,
           (s_status b =? "Cancelled")%string,
           (s_trackingNumber b) as [tn|], (s_carrier b) as [ca|];
    simpl;
    try destruct (tn =? EmptyString)%string; try destruct (ca =? EmptyString)%string;
    reflexivity.
Qed.

(** Every request keeps each stored order findable, with its amounts. *)
Lemma handle_keeps_totals (r : Request) (db : Orders) (id : string) (o : Order) :
  findById id db = Some o ->
  exists o', findById id (snd (handle r db)) = Some o' /\ totals o' = totals o.
Proof.
  intro H. destruct r as [e b | t id0 b | t id0 reason]; simpl.
  - unfold createOrder. destruct (b_items b) as [its|]; simpl; [|eauto].
    destruct (validate _ && negb _); simpl; [|eauto].
    exists o. split; [apply findById_app; exact H|reflexivity].
  - unfold updateStatus, findByIdAndUpdate.
    destruct (findById id0 db) as [o0|] eqn:F; cbn [snd]; [|eauto].
    set (o1 := set_updatedAt t (fold_left apply_set (updateData t b) o0)).
    assert (I : _id o1 = id0).
    { unfold o1. change (_id (set_updatedAt t ?x)) with (_id x).
      rewrite (proj1 (fold_apply_set_keeps _ _)). eapply findById_id; eauto. }
    assert (T : totals o1 = totals o0).
    { unfold o1. change (totals (set_updatedAt t ?x)) with (totals x).
      apply fold_apply_set_keeps. }
    destruct (String.eqb_spec id0 id) as [E|E].
    + subst id. exists o1. split; [|congruence].
      rewrite <- I. eapply findById_store_same. rewrite I. eauto.
    + exists o. rewrite findById_store_other by congruence. auto.
  - unfold cancelOrder.
    destruct (findById id0 db) as [o0|] eqn:F; cbn [snd]; [|eauto].
    destruct (Js.includes [_; _; _] (status o0)); cbn [snd]; [eauto|].
    set (o1 := set_updatedAt t _).
    pose proof (findById_id _ _ _ F) as I.
    assert (I1 : _id o1 = id0) by exact I.
    destruct (String.eqb_spec id0 id) as [E|E].
    + subst id. exists o1. split.
      * rewrite <- I1. eapply findById_store_same. rewrite I1. eauto.
      * assert (o = o0) by congruence. subst. reflexivity.
    + exists o. rewrite findById_store_other by congruence. auto.
Qed.

Lemma serve_keeps_totals (rs : list Request) (db : Orders) (id : string)
    (o : Order) :
  findById id db = Some o ->
  exists o', findById id (serve rs db) = Some o' /\ totals o' = totals o.
Proof.
  revert db o. induction rs as [|r rs IH]; intros db o H; simpl.
  - eauto.
  - destruct (handle_keeps_totals r db id o H) as [o1 [H1 T1]].
    destruct (IH _ _ H1) as [o2 [H2 T2]].
    exists o2. split; [exact H2|congruence].
Qed.

End OrderFacts.

Section OrderClaims.
Import OrderModel OrderRoutes Samples.

(** C7, as the code has it.  No emptiness check guards order creation: a body
    whose [items] is the empty list, with a customer and fresh keys, is
    answered 201 and stores an order of subtotal 0, shipping 50, tax 0 and
    total 50.  No creation request is answered 400, a body without an items
    array is answered 500 with nothing stored, and some non-empty cart is
    answered 201. *)
Theorem createOrder_empty_items (e : Env) (b : CreateBody) (db : Orders) :
  b_items b = Some [] ->
  validate (new_order e b []) = true ->
  duplicate_key (new_order e b []) db = false ->
  let o := new_order e b [] in
  createOrder e b db
    = (mkResponse 201 true "Order placed successfully" (Some o), db ++ [o])
  /\ items o = [] /\ subtotal o = 0 /\ shippingCost o = 50 /\ tax o = 0
  /\ totalAmount o = 50
  /\ (forall e' b' db', res_code (fst (createOrder e' b' db')) <> 400)
  /\ (forall e' b' db', b_items b' = None ->
        createOrder e' b' db' = (failed 500 "Failed to create order", db'))
  /\ (exists e' b' db' i its,
        b_items b' = Some (i :: its)
        /\ res_code (fst (createOrder e' b' db')) = 201).
Proof.
  intros I V D o. unfold createOrder. rewrite I.
  fold o. unfold o at 1 2. rewrite V, D. simpl.
  repeat split.
  - intros e' b' db'. unfold createOrder.
    destruct (b_items b'); [destruct (validate _ && negb _)|]; simpl; lia.
  - intros e' b' db' N. unfold createOrder. rewrite N. reflexivity.
  - exists env1, (cart (Some [apples])), [], apples, []. split; reflexivity.
Qed.

Lemma createOrder_empty_items_witness :
  let o := new_order env1 (cart (Some [])) [] in
  createOrder env1 (cart (Some [])) []
    = (mkResponse 201 true "Order placed successfully" (Some o), [] ++ [o])
  /\ totalAmount o = 50.
Proof.
  destruct (createOrder_empty_items env1 (cart (Some [])) [])
    as [H [_ [_ [_ [_ [T _]]]]]]; try reflexivity.
  split; [exact H|exact T].
Defined.

(** C7 as stated fails: the empty cart is answered 201, not 400, and an
    order is stored. *)
Lemma createOrder_empty_cart_not_rejected :
  res_code (fst (createOrder env1 (cart (Some [])) [])) = 201
  /\ res_code (fst (createOrder env1 (cart (Some [])) [])) <> 400
  /\ List.length (snd (createOrder env1 (cart (Some [])) [])) = 1%nat
  /\ ~ Spec.empty_cart_refused.
Proof.
  repeat split; try (vm_compute; congruence).
  intro H. destruct (H env1 (cart (Some [])) [] eq_refl) as [C _].
  vm_compute in C. discriminate C.
Qed.

(** C3 as stated fails: a Delivered order is moved back to Pending, a pair
    that is not in the transition table, with answer 200. *)
Lemma updateStatus_outside_table :
  Spec.in_table "Delivered" "Pending" = false
  /\ status delivered1 = "Delivered"
  /\ res_code (fst (updateStatus 3000 (_id delivered1)
                      (mkStatusBody "Pending" None None) [delivered1])) = 200
  /\ option_map status
       (findById (_id delivered1)
          (snd (updateStatus 3000 (_id delivered1)
                  (mkStatusBody "Pending" None None) [delivered1])))
     = Some "Pending"
  /\ ~ Spec.transition_table_enforced.
Proof.
  repeat split.
  intro H.
  destruct (H 3000 (_id delivered1) (mkStatusBody "Pending" None None)
              [delivered1] delivered1 eq_refl eq_refl) as [C _].
  vm_compute in C. discriminate C.
Qed.

(** C6, as the code has it.  A cancel request for an order whose status is
    Shipped, Out for Delivery or Delivered is answered 400 and nothing is
    written; for an order in any other status it is answered 200 and the
    order is stored as Cancelled, with the time and the reason of this
    request. *)
Theorem cancelOrder_guard (t : Z) (id : string) (reason : option string)
    (db : Orders) (o : Order) :
  findById id db = Some o ->
  if Js.includes ["Shipped"; "Out for Delivery"; "Delivered"] (status o)
  then cancelOrder t id reason db
       = (failed 400 "Order cannot be cancelled at this stage", db)
  else exists o',
         cancelOrder t id reason db
           = (mkResponse 200 true "Order cancelled successfully" (Some o'),
              store o' db)
         /\ findById id (store o' db) = Some o'
         /\ status o' = "Cancelled"
         /\ cancelledAt o' = Some t
         /\ cancellationReason o' = reason
         /\ totals o' = totals o.
Proof.
  intro F. unfold cancelOrder. rewrite F.
  destruct (Js.includes [_; _; _] (status o)); [reflexivity|].
  set (o1 := set_updatedAt t _). exists o1.
  assert (I : _id o1 = id) by (exact (findById_id _ _ _ F)).
  repeat split.
  rewrite <- I. eapply findById_store_same. rewrite I. eauto.
Qed.

Lemma cancelOrder_guard_witness :
  cancelOrder 3000 (_id shipped1) (Some "late") [shipped1]
  = (failed 400 "Order cannot be cancelled at this stage", [shipped1]).
Proof.
  apply (cancelOrder_guard 3000 (_id shipped1) (Some "late") [shipped1] shipped1).
  reflexivity.
Defined.

(** C6 as stated fails: a Refunded order, which the claim lists as not
    cancellable, is cancelled with answer 200 and stored as Cancelled. *)
Lemma cancelOrder_refunded_accepted :
  Js.includes Spec.not_cancellable (status refunded1) = true
  /\ res_code (fst (cancelOrder 3000 (_id refunded1) (Some "late") [refunded1]))
     = 200
  /\ option_map status
       (findById (_id refunded1)
          (snd (cancelOrder 3000 (_id refunded1) (Some "late") [refunded1])))
     = Some "Cancelled"
  /\ ~ Spec.cancel_refused_when_not_cancellable.
Proof.
  repeat split.
  intro H.
  destruct (H 3000 (_id refunded1) (Some "late") [refunded1] refunded1
              eq_refl eq_refl) as [C _].
  vm_compute in C. discriminate C.
Qed.

End OrderClaims.


(** * Properties of the payment service *)

Section PaymentFacts.
Import Js PaymentService.

Lemma findOne_paymentId (pid : string) (ps : list Payment) (p : Payment) :
  findOne pid ps = Some p -> paymentId p = pid.
Proof.
  induction ps as [|x ps IH]; simpl; [discriminate|].
  destruct (String.eqb_spec (paymentId x) pid) as [E|E]; [|exact IH].
  intro H; injection H as <-; exact E.
Qed.

Lemma findOne_save (pid : string) (ps : list Payment) (p p' : Payment) :
  findOne pid ps = Some p -> paymentId p' = pid ->
  findOne pid (save p' ps) = Some p'.
Proof.
  intros F E. subst pid. induction ps as [|x ps IH]; simpl in *; [discriminate|].
  destruct (paymentId x =? paymentId p')%string eqn:X; simpl.
  - rewrite String.eqb_refl. reflexivity.
  - rewrite X. auto.
Qed.

Lemma obj_get_set_same (k : string) (v : MixedVal) (o : Obj) :
  obj_get k (obj_set k v o) = Some v.
Proof.
  induction o as [|[k' v'] o IH]; simpl.
  - rewrite String.eqb_refl. reflexivity.
  - destruct (k' =? k)%string eqn:E; simpl.
    + rewrite String.eqb_refl. reflexivity.
    + rewrite E. exact IH.
Qed.

Lemma obj_get_set_other (k k' : string) (v : MixedVal) (o : Obj) :
  k' <> k -> obj_get k (obj_set k' v o) = obj_get k o.
Proof.
  intro N. induction o as [|[k0 v0] o IH]; simpl.
  - destruct (String.eqb_spec k' k); [contradiction|reflexivity].
  - destruct (String.eqb_spec k0 k') as [E|E]; simpl.
    + subst k0. destruct (String.eqb_spec k' k); [contradiction|reflexivity].
    + destruct (k0 =? k)%string; auto.
Qed.

Lemma completions_snoc (pid : string) (l : list LogLine) (x : LogLine) :
  completions pid (l ++ [x])
  = (completions pid l + completions pid [x])%nat.
Proof. unfold completions. rewrite filter_app, length_app. reflexivity. Qed.

Lemma forOrder_snoc (oid : string) (ps : list Payment) (p : Payment) :
  orderId p = oid ->
  List.length (forOrder oid (ps ++ [p])) = S (List.length (forOrder oid ps)).
Proof.
  intro E. unfold forOrder. rewrite filter_app, length_app. simpl.
  rewrite E, String.eqb_refl. simpl. lia.
Qed.

End PaymentFacts.

Section PaymentClaims.
Import Js PaymentService Samples.

(** C1, as the code has it.  [confirm] looks at neither the current status
    nor earlier calls: on a payment that exists, every call is answered 200,
    stores the status the gateway outcome of this call gives (completed on
    success, failed otherwise) together with the transaction id of this call,
    and reports it on the console, so each successful call counts as one more
    completion; an unknown payment id is answered 404 and nothing changes. *)
Theorem confirm_every_call (e : ConfirmEnv) (b : ConfirmBody) (s : State) :
  match findOne (c_paymentId b) (payments s) with
  | Some p =>
      exists p' d s',
        confirm e b s
          = (mkResponse 200 (isSuccess e)
               (if isSuccess e then "Payment successful" else "Payment failed")
               (Some d), s')
        /\ payments s' = save p' (payments s)
        /\ findOne (c_paymentId b) (payments s') = Some p'
        /\ status p' = (if isSuccess e then "completed" else "failed")
        /\ cd_status d = status p'
        /\ (exists g, gatewayResponse p' = Some g
                      /\ obj_get "transactionId" g
                         = Some (MStr (fresh_transactionId e)))
        /\ console s' = console s ++ [LogConfirmed (isSuccess e) (c_paymentId b)]
        /\ completions (c_paymentId b) (console s')
           = (completions (c_paymentId b) (console s)
              + if isSuccess e then 1 else 0)%nat
  | None => confirm e b s = (failed 404 "Payment not found", s)
  end.
Proof.
  unfold confirm. destruct (findOne _ (payments s)) as [p|] eqn:F; [|reflexivity].
  eexists _, _, _. split; [reflexivity|]. cbn [payments console].
  repeat split.
  - eapply findOne_save; [exact F|]. simpl. eapply findOne_paymentId; eauto.
  - eexists. split; [reflexivity|].
    rewrite obj_get_set_other by discriminate. apply obj_get_set_same.
  - rewrite completions_snoc. f_equal. unfold completions. simpl.
    destruct (isSuccess e); [rewrite String.eqb_refl|]; reflexivity.
Qed.

(** C1 as stated fails: a second confirm with the same evidence completes
    the completed payment once more, under a new transaction id, and when the
    gateway outcome of the second call is a failure the completed payment
    becomes failed. *)
Lemma confirm_twice_changes_state :
  let again := snd (confirm (success_at 3000 "txn_2") evidence completed1) in
  let undone := snd (confirm (failure_at 3000 "txn_2") evidence completed1) in
  option_map status (findOne "pay_1" (payments completed1)) = Some "completed"
  /\ option_map status (findOne "pay_1" (payments again)) = Some "completed"
  /\ completions "pay_1" (console again) = 2%nat
  /\ findOne "pay_1" (payments again) <> findOne "pay_1" (payments completed1)
  /\ option_map status (findOne "pay_1" (payments undone)) = Some "failed"
  /\ ~ Spec.confirm_idempotent.
Proof.
  repeat split; try (vm_compute; congruence).
  intro H.
  pose proof (H (success_at 3000 "txn_2") evidence completed1 paid1
                eq_refl eq_refl) as C.
  vm_compute in C. discriminate C.
Qed.

(** C5 as stated fails: the order already has a payment in status initiated,
    and the repeated call stores a second payment for it and answers with
    the new payment, not the existing one. *)
Lemma initiate_repeat_duplicates :
  let again := initiate no_number initEnv2 initBody1 initiated1 in
  option_map status (findOne "pay_1" (payments initiated1)) = Some "initiated"
  /\ map paymentId (forOrder "ord_1" (payments initiated1)) = ["pay_1"]
  /\ res_code (fst again) = 201
  /\ option_map d_paymentId (res_data (fst again)) = Some "pay_2"
  /\ map paymentId (forOrder "ord_1" (payments (snd again)))
     = ["pay_1"; "pay_2"]
  /\ ~ Spec.initiate_idempotent.
Proof.
  repeat split.
  intro H.
  assert (P : exists p, payments initiated1 = [p]
                        /\ orderId p = "ord_1" /\ status p = "initiated")
    by (eexists; repeat split).
  destruct P as [p [E [O S]]].
  pose proof (H no_number initEnv2 initBody1 initiated1 p) as C.
  rewrite E in C at 1. specialize (C (or_introl eq_refl)).
  rewrite O, S in C. specialize (C eq_refl eq_refl).
  vm_compute in C. discriminate C.
Qed.

(** C9, as the code has it.  The refund handler checks the status and
    nothing else: for any requested number [n], larger than the payment's
    amount or not, an unknown payment id is answered 404 and a payment that
    is not completed 400, both with nothing written, and a completed payment
    is answered 200 and stored as refunded with refund amount [n], or its
    own amount when [n] is 0. *)
Theorem refund_checks_status_only (js_Number : string -> option Z)
    (t : Z) (pid : string) (reason : option string) (n : Z) (s : State) :
  match findOne pid (payments s) with
  | None =>
      refund js_Number t pid (mkRefundBody reason (JNum n)) s
      = (failed 404 "Payment not found", s)
  | Some p =>
      if (status p =? "completed")%string
      then exists p' d s',
             refund js_Number t pid (mkRefundBody reason (JNum n)) s
               = (mkResponse 200 true "Refund processed successfully" (Some d),
                  s')
             /\ payments s' = save p' (payments s)
             /\ findOne pid (payments s') = Some p'
             /\ status p' = "refunded" /\ rd_status d = "refunded"
             /\ refundAmount p' = Some (if n =? 0 then amount p else n)
             /\ refundReason p' = reason /\ amount p' = amount p
      else refund js_Number t pid (mkRefundBody reason (JNum n)) s
           = (failed 400 "Only completed payments can be refunded", s)
  end.
Proof.
  unfold refund. destruct (findOne pid (payments s)) as [p|] eqn:F; [|reflexivity].
  destruct (status p =? "completed")%string; [|reflexivity].
  cbn [negb r_amount r_reason]. unfold Js.or, truthy.
  pose proof (findOne_paymentId _ _ _ F) as I.
  destruct (n =? 0); cbn [negb castNumber];
    eexists _, _, _; (split; [reflexivity|]); cbn [payments];
    repeat split; eapply findOne_save; eauto.
Qed.

(** C9 as stated fails: a refund of 500 on a completed payment of 286 is
    answered 200 and stored. *)
Lemma refund_exceeding_amount_accepted :
  let r := refund no_number 4000 "pay_1" (mkRefundBody None (JNum 500))
             completed1 in
  option_map amount (findOne "pay_1" (payments completed1)) = Some 286
  /\ res_code (fst r) = 200
  /\ option_map refundAmount (findOne "pay_1" (payments (snd r)))
     = Some (Some 500)
  /\ option_map status (findOne "pay_1" (payments (snd r))) = Some "refunded"
  /\ ~ Spec.refund_bounded_by_amount.
Proof.
  repeat split.
  intro H.
  pose proof (H no_number 4000 "pay_1" None 500 completed1 paid1
                eq_refl eq_refl) as C.
  vm_compute in C. apply C. reflexivity.
Qed.

(** C10.  A refund request on a completed payment whose [amount] is absent,
    null, false, zero or the empty string refunds the payment in full: the
    answer is 200 and the payment is stored as refunded with [refundAmount]
    equal to its [amount]. *)
Theorem refund_falsy_amount_full (js_Number : string -> option Z)
    (t : Z) (pid : string) (b : RefundBody) (s : State) (p : Payment) :
  findOne pid (payments s) = Some p ->
  status p = "completed" ->
  truthy (r_amount b) = false ->
  exists p' s',
    refund js_Number t pid b s
      = (mkResponse 200 true "Refund processed successfully"
           (Some (mkRefundData pid (JNum (amount p)) "refunded")), s')
    /\ payments s' = save p' (payments s)
    /\ findOne pid (payments s') = Some p'
    /\ status p' = "refunded"
    /\ refundAmount p' = Some (amount p)
    /\ amount p' = amount p.
Proof.
  intros F C A. unfold refund. rewrite F, C. cbn [String.eqb negb].
  replace ("completed" =? "completed")%string with true by reflexivity.
  cbn [negb]. unfold Js.or. rewrite A. cbn [castNumber].
  pose proof (findOne_paymentId _ _ _ F) as I.
  eexists _, _. split.
  - cbn [paymentId refunded status]. rewrite I. reflexivity.
  - cbn [payments]. repeat split. eapply findOne_save; eauto.
Qed.

Lemma refund_falsy_amount_full_witness :
  exists p' s',
    refund no_number 4000 "pay_1" (mkRefundBody (Some "damaged") JUndefined)
      completed1
      = (mkResponse 200 true "Refund processed successfully"
           (Some (mkRefundData "pay_1" (JNum 286) "refunded")), s')
    /\ payments s' = save p' (payments completed1)
    /\ findOne "pay_1" (payments s') = Some p'
    /\ status p' = "refunded"
    /\ refundAmount p' = Some 286
    /\ amount p' = 286.
Proof.
  apply (refund_falsy_amount_full no_number 4000 "pay_1"
           (mkRefundBody (Some "damaged") JUndefined) completed1 paid1);
    reflexivity.
Defined.

End PaymentClaims.


(** * Inventory *)

Section InventoryClaims.
Import ProductInventory Samples.

(** C2, on the code.  With three units in stock, a decrement by five is
    answered 200 and the stored quantity becomes -2, a value the schema's own
    validator on [quantity] refuses. *)
Lemma updateInventory_decrement_below_zero :
  let r := updateInventory 5000 "prod_1" (mkInventoryBody 5 (Some "decrement"))
             stock3 in
  option_map quantity (findById "prod_1" (products stock3)) = Some 3
  /\ res_code (fst r) = 200
  /\ option_map d_quantity (res_data (fst r)) = Some (-2)
  /\ option_map quantity (findById "prod_1" (products (snd r))) = Some (-2)
  /\ quantity_valid (-2) = false.
Proof. vm_compute. repeat split. Qed.

End InventoryClaims.

(** * The broker client *)

Section MessagingClaims.
Import Messaging Samples.

Variable Content : Type.
Variable JSON_parse : string -> option Content.
Variable St : Type.
Variable handler : Content -> Message -> St -> St * bool.

Lemma deliver_failing (m : Message) (rest : list Message) (q : Queue) (st : St) :
  always_fails Content JSON_parse St handler (content m) ->
  ready q = m :: rest ->
  exists st',
    deliver Content JSON_parse St handler q st
    = (mkQueue (mkMessage (content m) (S (deliveries m)) true :: rest)
         (acked q) (dead_lettered q) (dropped q), st').
Proof.
  unfold always_fails, deliver, on_message. intros A R. rewrite R.
  cbn [content]. destruct (JSON_parse (content m)) as [x|].
  - specialize (A (mkMessage (content m) (S (deliveries m)) (redelivered m)) st).
    destruct (handler x _ st) as [st' ok]. simpl in A. subst ok.
    exists st'. reflexivity.
  - exists st. reflexivity.
Qed.

(** C8, as the code has it.  A message whose processing fails is negatively
    acknowledged with requeue: after any number [n] of deliveries it is back
    at the head of its queue, delivered [n] more times than before, and it
    has been neither acknowledged, nor dead-lettered, nor dropped. *)
Theorem subscribe_requeues_forever (n : nat) (m : Message)
    (rest : list Message) (q : Queue) (st : St) :
  always_fails Content JSON_parse St handler (content m) ->
  ready q = m :: rest ->
  exists st',
    run Content JSON_parse St handler n q st
    = (mkQueue
         (mkMessage (content m) (deliveries m + n)
            (match n with O => redelivered m | S _ => true end) :: rest)
         (acked q) (dead_lettered q) (dropped q), st').
Proof.
  revert m q st. induction n as [|k IH]; intros m q st A R.
  - exists st. simpl. rewrite Nat.add_0_r. destruct q, m; simpl in *.
    congruence.
  - cbn [run]. destruct (deliver_failing m rest q st A R) as [st1 D].
    rewrite D.
    destruct (IH (mkMessage (content m) (S (deliveries m)) true)
                (mkQueue (mkMessage (content m) (S (deliveries m)) true :: rest)
                   (acked q) (dead_lettered q) (dropped q)) st1 A eq_refl)
      as [st2 E].
    exists st2. rewrite E. cbn [content deliveries redelivered acked
                                dead_lettered dropped].
    rewrite Nat.add_succ_r. destruct k; reflexivity.
Qed.

End MessagingClaims.

Section MessagingExamples.
Import Messaging Samples.

Lemma subscribe_requeues_forever_witness :
  exists st',
    run string parse_any unit always_throws 5 queue1 tt
    = (mkQueue [mkMessage (content poison) 5 true] [] [] [], st').
Proof.
  apply (subscribe_requeues_forever string parse_any unit always_throws
           5 poison [] queue1 tt).
  - intros m st. reflexivity.
  - reflexivity.
Defined.

(** C8 as stated fails: after three failures the message has been delivered
    three times, which is two redeliveries, and it waits on the queue for the
    fourth; nothing has been dead-lettered. *)
Lemma subscribe_redelivers_more_than_once :
  let q := fst (run string parse_any unit always_throws 3 queue1 tt) in
  map deliveries (ready q) = [3%nat]
  /\ map content (ready q) = [content poison]
  /\ dead_lettered q = [] /\ dropped q = [] /\ acked q = []
  /\ ~ Spec.redelivered_at_most_once.
Proof.
  repeat split.
  intro H.
  assert (A : always_fails string parse_any unit always_throws (content poison))
    by (intros m st; reflexivity).
  pose proof (H string parse_any unit always_throws 3%nat poison tt A eq_refl
                (mkMessage (content poison) 3 true) (or_introl eq_refl)) as C.
  simpl in C. lia.
Qed.

End MessagingExamples.


(** * Further properties: sorting *)

Section SortFacts.
Import Mongo.

Variable A : Type.
Variable key : A -> Z.

Lemma insert_desc_perm (x : A) (l : list A) :
  Permutation (insert_desc key x l) (x :: l).
Proof.
  induction l as [|y l IH]; simpl; [apply Permutation_refl|].
  destruct (key y <=? key x); [apply Permutation_refl|].
  apply Permutation_trans with (y :: x :: l);
    [apply perm_skip; exact IH|apply perm_swap].
Qed.

Lemma sort_desc_perm (l : list A) : Permutation (sort_desc key l) l.
Proof.
  induction l as [|x l IH]; simpl; [apply perm_nil|].
  apply Permutation_trans with (x :: sort_desc key l);
    [apply insert_desc_perm|apply perm_skip; exact IH].
Qed.

Lemma insert_desc_sorted (x : A) (l : list A) :
  Sorted (not_older key) l -> Sorted (not_older key) (insert_desc key x l).
Proof.
  induction l as [|y l IH]; simpl; intro S.
  - repeat constructor.
  - destruct (Z.leb_spec (key y) (key x)) as [L|L].
    + constructor; [exact S|]. constructor. exact L.
    + inversion S as [|? ? S' H]; subst. constructor; [apply IH; exact S'|].
      destruct l as [|z l]; simpl.
      * constructor. unfold not_older. lia.
      * destruct (key z <=? key x); constructor.
        -- unfold not_older. lia.
        -- inversion H; assumption.
Qed.

Lemma sort_desc_sorted (l : list A) :
  StronglySorted (not_older key) (sort_desc key l).
Proof.
  apply Sorted_StronglySorted.
  - intros a b c H1 H2. unfold not_older in *. lia.
  - induction l as [|x l IH]; simpl; [constructor|].
    apply insert_desc_sorted. exact IH.
Qed.

End SortFacts.


(** * Further properties of the order routes *)

Section OrderExtras.
Import OrderModel OrderRoutes OrderQueries Samples MoreSamples.

Lemma findById_app_other (id : string) (db : Orders) (o : Order) :
  _id o <> id -> findById id (db ++ [o]) = findById id db.
Proof.
  intro N. induction db as [|x db IH]; simpl.
  - destruct (String.eqb_spec (_id o) id); [contradiction|reflexivity].
  - destruct (_id x =? id)%string; auto.
Qed.

Lemma map_store {B : Type} (f : Order -> B) (o' o : Order) (db : Orders) :
  findById (_id o') db = Some o -> f o' = f o ->
  map f (store o' db) = map f db.
Proof.
  intros F E. induction db as [|x db IH]; simpl in *; [reflexivity|].
  destruct (_id x =? _id o')%string; simpl.
  - injection F as ->. rewrite E. reflexivity.
  - rewrite IH by exact F. reflexivity.
Qed.

Lemma findById_In (id : string) (db : Orders) (o : Order) :
  findById id db = Some o -> In o db.
Proof.
  induction db as [|x db IH]; simpl; [discriminate|].
  destruct (_id x =? id)%string.
  - intro H; injection H as ->. left; reflexivity.
  - intro H. right. auto.
Qed.

Lemma duplicate_key_notin (o : Order) (db : Orders) :
  duplicate_key o db = false ->
  ~ In (_id o) (map _id db) /\ ~ In (orderNumber o) (map orderNumber db).
Proof.
  unfold duplicate_key. induction db as [|x db IH]; simpl.
  - intros _. split; intros [].
  - intro H. apply orb_false_iff in H as [H1 H2].
    apply orb_false_iff in H1 as [A B].
    apply String.eqb_neq in A, B. destruct (IH H2) as [I1 I2].
    split; intros [E|E]; auto.
Qed.

Lemma fold_apply_set_identity (l : list SetField) (o : Order) :
  _id (fold_left apply_set l o) = _id o
  /\ orderNumber (fold_left apply_set l o) = orderNumber o
  /\ customerId (fold_left apply_set l o) = customerId o
  /\ createdAt (fold_left apply_set l o) = createdAt o.
Proof.
  revert o; induction l as [|f l IH]; intro o; simpl; [auto|].
  destruct (IH (apply_set o f)) as [a [b [c d]]].
  rewrite a, b, c, d. destruct f; auto.
Qed.

(** What a write route returns for the collection is either the collection,
    the collection with one new order at the end, or the collection with a
    stored order rewritten in place under the same [_id], [orderNumber],
    customer and creation time. *)
Lemma handle_shape (r : Request) (db : Orders) :
  snd (handle r db) = db
  \/ (exists o, snd (handle r db) = db ++ [o] /\ duplicate_key o db = false)
  \/ (exists o o', snd (handle r db) = store o' db
                   /\ findById (_id o') db = Some o
                   /\ orderNumber o' = orderNumber o
                   /\ customerId o' = customerId o
                   /\ createdAt o' = createdAt o).
Proof.
  destruct r as [e b | t id b | t id reason]; simpl.
  - unfold createOrder. destruct (b_items b) as [its|]; [|left; reflexivity].
    destruct (validate _ && negb _) eqn:V; [|left; reflexivity].
    right; left. eexists. split; [reflexivity|].
    apply andb_true_iff in V as [_ D]. apply negb_true_iff in D. exact D.
  - unfold updateStatus, findByIdAndUpdate.
    destruct (findById id db) as [o|] eqn:F; [|left; reflexivity].
    right; right. exists o. eexists. split; [reflexivity|].
    set (u := fold_left apply_set (updateData t b) o).
    pose proof (fold_apply_set_identity (updateData t b) o) as K. fold u in K.
    destruct K as [K1 [K2 [K3 K4]]].
    change (_id (set_updatedAt t u)) with (_id u).
    rewrite K1, (findById_id _ _ _ F). auto.
  - unfold cancelOrder.
    destruct (findById id db) as [o|] eqn:F; [|left; reflexivity].
    destruct (Js.includes [_; _; _] (status o)); [left; reflexivity|].
    right; right. exists o. eexists. split; [reflexivity|].
    simpl. rewrite (findById_id _ _ _ F). auto.
Qed.

Lemma NoDup_snoc {B : Type} (l : list B) (x : B) :
  NoDup l -> ~ In x l -> NoDup (l ++ [x]).
Proof.
  intros N I. apply (Permutation_NoDup (Permutation_cons_append l x)).
  constructor; assumption.
Qed.

Lemma updateStatus_stored (t : Z) (id : string) (b : StatusBody) (db : Orders)
    (o : Order) :
  findById id db = Some o ->
  let o' := set_updatedAt t (fold_left apply_set (updateData t b) o) in
  updateStatus t id b db
    = (mkResponse 200 true "Order status updated" (Some o'), store o' db)
  /\ _id o' = id
  /\ findById id (store o' db) = Some o'.
Proof.
  intros F o'. unfold updateStatus, findByIdAndUpdate. rewrite F. fold o'.
  assert (I : _id o' = id).
  { unfold o'. change (_id (set_updatedAt t ?x)) with (_id x).
    rewrite (proj1 (fold_apply_set_keeps _ _)). eapply findById_id; eauto. }
  repeat split; [exact I|].
  rewrite <- I. eapply findById_store_same. rewrite I. eauto.
Qed.

(** X2.  The unique keys stay unique: if no two stored orders share an
    [_id] or an [orderNumber], the same holds after any sequence of create,
    status and cancel requests. *)
Theorem serve_keeps_keys_unique (rs : list Request) (db : Orders) :
  NoDup (map _id db) -> NoDup (map orderNumber db) ->
  NoDup (map _id (serve rs db)) /\ NoDup (map orderNumber (serve rs db)).
Proof.
  revert db. induction rs as [|r rs IH]; intros db N1 N2; simpl; [auto|].
  apply IH.
  - destruct (handle_shape r db) as [E|[[o [E D]]|[o [o' [E [F _]]]]]];
      rewrite E; [exact N1| |].
    + rewrite map_app. apply NoDup_snoc; [exact N1|].
      apply (duplicate_key_notin o db D).
    + rewrite (map_store _id o' o db F); [exact N1|].
      symmetry. eapply findById_id; eauto.
  - destruct (handle_shape r db) as [E|[[o [E D]]|[o [o' [E [F [G _]]]]]]];
      rewrite E; [exact N2| |].
    + rewrite map_app. apply NoDup_snoc; [exact N2|].
      apply (duplicate_key_notin o db D).
    + rewrite (map_store orderNumber o' o db F G). exact N2.
Qed.

Lemma serve_keeps_keys_unique_witness :
  NoDup (map _id (serve [PostOrder env2 (cod_cart (Some [pears]));
                         PostCancel 3000 (_id order1) None] [order1]))
  /\ NoDup (map orderNumber
              (serve [PostOrder env2 (cod_cart (Some [pears]));
                      PostCancel 3000 (_id order1) None] [order1])).
Proof.
  apply (serve_keeps_keys_unique
           [PostOrder env2 (cod_cart (Some [pears]));
            PostCancel 3000 (_id order1) None] [order1]);
    simpl; repeat constructor; intros [].
Defined.

(** X3.  Orders are never removed or re-keyed: after any sequence of
    requests the collection lists the orders it listed before, in the same
    places and with the same [_id], [orderNumber], customer and creation
    time, followed by the orders created since. *)
Theorem serve_appends_only (rs : list Request) (db : Orders) :
  exists newer,
    map (fun o => (_id o, orderNumber o, customerId o, createdAt o))
      (serve rs db)
    = map (fun o => (_id o, orderNumber o, customerId o, createdAt o)) db
      ++ newer.
Proof.
  revert db. induction rs as [|r rs IH]; intro db; simpl.
  - exists []. rewrite app_nil_r. reflexivity.
  - destruct (IH (snd (handle r db))) as [n2 E2]. rewrite E2.
    destruct (handle_shape r db)
      as [E|[[o [E D]]|[o [o' [E [F [G1 [G2 G3]]]]]]]]; rewrite E.
    + exists n2. reflexivity.
    + rewrite map_app, <- app_assoc. eexists. reflexivity.
    + exists n2. f_equal. apply (map_store _ o' o db F).
      rewrite G1, G2, G3, (findById_id _ _ _ F). reflexivity.
Qed.

(** X4.  Creation is refused with 500, and nothing is stored, when neither
    the body nor the [x-user-id] header names a customer, when an item has a
    quantity below 1 or lacks its product id, product name or vendor id, or
    when the payment method is not one of the schema's. *)
Theorem createOrder_invalid_rejected (e : Env) (b : CreateBody) (db : Orders) :
  Js.str_truthy (Js.str_or (b_customerId b) (x_user_id e)) = false
  \/ (exists its i, b_items b = Some its /\ In i its
                    /\ (i_quantity i < 1 \/ i_productId i = EmptyString
                        \/ i_productName i = EmptyString
                        \/ i_vendorId i = EmptyString))
  \/ (exists m, b_paymentMethod b = Some m /\ ~ In m paymentMethod_enum) ->
  createOrder e b db = (failed 500 "Failed to create order", db).
Proof.
  intro H. unfold createOrder. destruct (b_items b) as [its|]; [|reflexivity].
  replace (validate (new_order e b its)) with false; [reflexivity|].
  symmetry. unfold validate. cbn [customerId items shippingAddress
    billingAddress status paymentMethod paymentStatus new_order].
  destruct H as [H|[[its' [i [E [I Q]]]]|[m [E N]]]].
  - rewrite H. reflexivity.
  - injection E as <-.
    replace (forallb valid_item its) with false;
      [rewrite andb_false_r; reflexivity|].
    symmetry. apply not_true_is_false. intro A.
    rewrite forallb_forall in A. specialize (A i I). unfold valid_item in A.
    repeat (apply andb_true_iff in A as [A ?]).
    unfold required_str in *.
    destruct Q as [Q|[Q|[Q|Q]]]; try (rewrite Q in *; discriminate).
    apply Z.leb_le in H. lia.
  - rewrite E.
    replace (Js.includes paymentMethod_enum m) with false;
      [rewrite !andb_false_r; reflexivity|].
    symmetry. apply not_true_is_false. intro A. apply N.
    unfold Js.includes in A. apply existsb_exists in A as [x [I X]].
    apply String.eqb_eq in X. subst. exact I.
Qed.

Lemma createOrder_invalid_rejected_witness :
  createOrder anonymous (cart (Some [apples])) [order1]
  = (failed 500 "Failed to create order", [order1]).
Proof.
  apply (createOrder_invalid_rejected anonymous (cart (Some [apples])) [order1]).
  left. reflexivity.
Defined.

(** X6.  A created order is Confirmed when it is paid cash on delivery,
    which is also what an absent payment method means, and Pending Payment
    for every other method of the schema; it is never created as Pending,
    and a Confirmed one carries no [confirmedAt]. *)
Theorem createOrder_status_by_method (e : Env) (b : CreateBody)
    (db db' : Orders) (o : Order) :
  createOrder e b db
    = (mkResponse 201 true "Order placed successfully" (Some o), db') ->
  (b_paymentMethod b = None ->
   paymentMethod o = "cod" /\ status o = "Confirmed")
  /\ (forall m, b_paymentMethod b = Some m ->
        In m paymentMethod_enum /\ paymentMethod o = m
        /\ status o = if (m =? "cod")%string then "Confirmed"
                      else "Pending Payment")
  /\ status o <> "Pending"
  /\ confirmedAt o = None /\ paymentStatus o = "pending".
Proof.
  unfold createOrder. destruct (b_items b) as [its|]; [|discriminate].
  destruct (validate _ && negb _) eqn:V; [|discriminate].
  intro H. injection H as <- <-.
  apply andb_true_iff in V as [V _].
  assert (M : Js.includes paymentMethod_enum
                (match b_paymentMethod b with Some m => m | None => "cod" end)
              = true).
  { unfold validate in V. repeat (apply andb_true_iff in V as [V ?]).
    match goal with
    | H : Js.includes paymentMethod_enum _ = true |- _ => exact H
    end. }
  clear V. split; [|split; [|split; [|split]]]; simpl.
  - intro N. rewrite N. split; reflexivity.
  - intros m E. rewrite E in *. repeat split.
    unfold Js.includes in M. apply existsb_exists in M as [x [I X]].
    apply String.eqb_eq in X. subst. exact I.
  - destruct (_ =? "cod")%string; discriminate.
  - reflexivity.
  - reflexivity.
Qed.

Lemma createOrder_status_by_method_witness :
  (b_paymentMethod (cod_cart (Some [pears])) = None ->
   paymentMethod order2 = "cod" /\ status order2 = "Confirmed")
  /\ (forall m, b_paymentMethod (cod_cart (Some [pears])) = Some m ->
        In m paymentMethod_enum /\ paymentMethod order2 = m
        /\ status order2 = if (m =? "cod")%string then "Confirmed"
                           else "Pending Payment")
  /\ status order2 <> "Pending"
  /\ confirmedAt order2 = None /\ paymentStatus order2 = "pending".
Proof.
  apply (createOrder_status_by_method env2 (cod_cart (Some [pears])) [order1]
           [order1; order2] order2).
  reflexivity.
Defined.

(** X7.  A status update stamps [confirmedAt], [shippedAt], [deliveredAt]
    or [cancelledAt] exactly when the requested status is Confirmed,
    Shipped, Delivered or Cancelled, and leaves the other three as they
    were; a tracking number and a carrier in the body are stored only
    together with the status Shipped, and only when not empty; the
    cancellation reason is never touched. *)
Theorem updateStatus_stamps (t : Z) (id : string) (b : StatusBody)
    (db : Orders) (o : Order) :
  findById id db = Some o ->
  exists o',
    updateStatus t id b db
      = (mkResponse 200 true "Order status updated" (Some o'), store o' db)
    /\ confirmedAt o'
       = (if (s_status b =? "Confirmed")%string then Some t else confirmedAt o)
    /\ shippedAt o'
       = (if (s_status b =? "Shipped")%string then Some t else shippedAt o)
    /\ deliveredAt o'
       = (if (s_status b =? "Delivered")%string then Some t else deliveredAt o)
    /\ cancelledAt o'
       = (if (s_status b =? "Cancelled")%string then Some t else cancelledAt o)
    /\ trackingNumber o'
       = (if (s_status b =? "Shipped")%string
             && Js.str_truthy (s_trackingNumber b)
          then s_trackingNumber b else trackingNumber o)
    /\ carrier o'
       = (if (s_status b =? "Shipped")%string && Js.str_truthy (s_carrier b)
          then s_carrier b else carrier o)
    /\ cancellationReason o' = cancellationReason o
    /\ updatedAt o' = t.
Proof.
  intro F. destruct (updateStatus_stored t id b db o F) as [E _].
  eexists. split; [exact E|].
  unfold updateData, if_truthy, Js.str_truthy.
  destruct (s_status b =? "Confirmed")%string,
           (s_status b =? "Shipped")%string,
           (s_status b =? "Delivered")%string,
           (s_status b =? "Cancelled")%string,
           (s_trackingNumber b) as [tn|], (s_carrier b) as [ca|];
    try destruct (tn =? EmptyString)%string;
    try destruct (ca =? EmptyString)%string;
    repeat split.
Qed.

Lemma updateStatus_stamps_witness :
  exists o',
    updateStatus 3000 (_id order1) ship_body [order1]
      = (mkResponse 200 true "Order status updated" (Some o'),
         store o' [order1])
    /\ confirmedAt o' = None /\ shippedAt o' = Some 3000
    /\ deliveredAt o' = None /\ cancelledAt o' = None
    /\ trackingNumber o' = Some "TRACK-9" /\ carrier o' = Some "BlueDart"
    /\ cancellationReason o' = None /\ updatedAt o' = 3000.
Proof.
  apply (updateStatus_stamps 3000 (_id order1) ship_body [order1] order1).
  reflexivity.
Defined.

(** X8.  Once a status update has moved an order to Shipped, Out for
    Delivery or Delivered, a cancel request for it is refused with 400 and
    writes nothing. *)
Theorem ship_then_cancel_refused (t1 t2 : Z) (id : string) (b : StatusBody)
    (reason : option string) (db : Orders) (o : Order) :
  findById id db = Some o ->
  In (s_status b) ["Shipped"; "Out for Delivery"; "Delivered"] ->
  let db1 := snd (updateStatus t1 id b db) in
  cancelOrder t2 id reason db1
  = (failed 400 "Order cannot be cancelled at this stage", db1).
Proof.
  intros F I db1. destruct (updateStatus_stored t1 id b db o F) as [E [_ G]].
  unfold db1. rewrite E. cbn [snd]. unfold cancelOrder. rewrite G.
  change (status (set_updatedAt t1 ?x)) with (status x).
  rewrite updateData_status.
  destruct I as [<-|[<-|[<-|[]]]]; reflexivity.
Qed.

Lemma ship_then_cancel_refused_witness :
  let db1 := snd (updateStatus 3000 (_id order1) ship_body [order1]) in
  cancelOrder 4000 (_id order1) (Some "late") db1
  = (failed 400 "Order cannot be cancelled at this stage", db1).
Proof.
  apply (ship_then_cancel_refused 3000 4000 (_id order1) ship_body
           (Some "late") [order1] order1).
  - reflexivity.
  - left. reflexivity.
Defined.

(** X10.  After an order has been marked Shipped with a tracking number,
    [GET /:id/tracking] answers 200 with the status Shipped, that tracking
    number, the shipping time of the update and the order's number. *)
Theorem ship_then_tracking (t : Z) (id tn : string) (ca : option string)
    (db : Orders) (o : Order) :
  findById id db = Some o ->
  tn <> EmptyString ->
  exists tr,
    getTracking id (snd (updateStatus t id (mkStatusBody "Shipped" (Some tn) ca) db))
    = mkResponse 200 true EmptyString (Some tr)
    /\ tr_id tr = id /\ tr_orderNumber tr = orderNumber o
    /\ tr_status tr = "Shipped" /\ tr_trackingNumber tr = Some tn
    /\ tr_shippedAt tr = Some t
    /\ tr_estimatedDelivery tr = estimatedDelivery o.
Proof.
  intros F N.
  destruct (updateStatus_stored t id (mkStatusBody "Shipped" (Some tn) ca)
              db o F) as [E [I G]].
  rewrite E. cbn [snd]. unfold getTracking. rewrite G.
  eexists. split; [reflexivity|].
  apply String.eqb_neq in N.
  unfold select_tracking, updateData, if_truthy, Js.str_truthy.
  cbn [s_status s_trackingNumber s_carrier String.eqb Ascii.eqb Bool.eqb].
  rewrite N. cbn [negb].
  destruct ca as [c|]; [destruct (c =? EmptyString)%string|];
    repeat split; simpl; eapply findById_id; eauto.
Qed.

Lemma ship_then_tracking_witness :
  exists tr,
    getTracking (_id order1)
      (snd (updateStatus 3000 (_id order1)
              (mkStatusBody "Shipped" (Some "TRACK-9") (Some "BlueDart"))
              [order1]))
    = mkResponse 200 true EmptyString (Some tr)
    /\ tr_id tr = _id order1 /\ tr_orderNumber tr = orderNumber order1
    /\ tr_status tr = "Shipped" /\ tr_trackingNumber tr = Some "TRACK-9"
    /\ tr_shippedAt tr = Some 3000
    /\ tr_estimatedDelivery tr = estimatedDelivery order1.
Proof.
  apply (ship_then_tracking 3000 (_id order1) "TRACK-9" (Some "BlueDart")
           [order1] order1).
  - reflexivity.
  - discriminate.
Defined.

(** X11.  [GET /user/:userId] answers 200 with exactly the stored orders of
    that customer, none of them twice when none is stored twice, the most
    recently created first. *)
Theorem getOrdersByUser_listing (userId : string) (db : Orders) :
  exists l,
    getOrdersByUser userId db = mkResponse 200 true EmptyString (Some l)
    /\ (forall o, In o l <-> In o db /\ customerId o = Some userId)
    /\ (NoDup db -> NoDup l)
    /\ StronglySorted (Mongo.not_older createdAt) l.
Proof.
  eexists. split; [reflexivity|]. split; [|split].
  - intro o. split.
    + intro I. apply (Permutation_in _ (sort_desc_perm _ _ _)) in I.
      apply filter_In in I as [I P]. split; [exact I|].
      destruct (customerId o) as [c|]; [|discriminate].
      apply String.eqb_eq in P. congruence.
    + intros [I C].
      apply (Permutation_in _ (Permutation_sym (sort_desc_perm _ _ _))).
      apply filter_In. split; [exact I|]. rewrite C. apply String.eqb_refl.
  - intro N.
    apply (Permutation_NoDup (Permutation_sym (sort_desc_perm _ _ _))).
    apply NoDup_filter. exact N.
  - apply sort_desc_sorted.
Qed.

(** X12.  [GET /vendor/:vendorId] answers 200 with exactly the stored
    orders that hold an item of that vendor, none of them twice when none is
    stored twice, the most recently created first. *)
Theorem getOrdersByVendor_listing (vendorId : string) (db : Orders) :
  exists l,
    getOrdersByVendor vendorId db = mkResponse 200 true EmptyString (Some l)
    /\ (forall o, In o l <->
                  In o db /\ exists i, In i (items o) /\ i_vendorId i = vendorId)
    /\ (NoDup db -> NoDup l)
    /\ StronglySorted (Mongo.not_older createdAt) l.
Proof.
  eexists. split; [reflexivity|]. split; [|split].
  - intro o. split.
    + intro I. apply (Permutation_in _ (sort_desc_perm _ _ _)) in I.
      apply filter_In in I as [I P]. split; [exact I|].
      apply existsb_exists in P as [i [Ii E]]. exists i.
      apply String.eqb_eq in E. auto.
    + intros [I [i [Ii E]]].
      apply (Permutation_in _ (Permutation_sym (sort_desc_perm _ _ _))).
      apply filter_In. split; [exact I|]. apply existsb_exists.
      exists i. split; [exact Ii|]. rewrite E. apply String.eqb_refl.
  - intro N.
    apply (Permutation_NoDup (Permutation_sym (sort_desc_perm _ _ _))).
    apply NoDup_filter. exact N.
  - apply sort_desc_sorted.
Qed.

End OrderExtras.


(** * Further properties of the payment service *)

Section PaymentExtras.
Import Js PaymentService PaymentQueries Samples.

Lemma findOne_app_fresh (pid : string) (ps : list Payment) (p : Payment) :
  findOne pid ps = None -> paymentId p = pid -> findOne pid (ps ++ [p]) = Some p.
Proof.
  intros H E. induction ps as [|x ps IH]; simpl in *.
  - rewrite E, String.eqb_refl. reflexivity.
  - destruct (paymentId x =? pid)%string; [discriminate|auto].
Qed.

Lemma findOne_app_keeps (pid : string) (ps l : list Payment) (p : Payment) :
  findOne pid ps = Some p -> findOne pid (ps ++ l) = Some p.
Proof.
  induction ps as [|x ps IH]; simpl; [discriminate|].
  destruct (paymentId x =? pid)%string; auto.
Qed.

Lemma findOne_app_other (pid : string) (ps : list Payment) (p : Payment) :
  paymentId p <> pid -> findOne pid (ps ++ [p]) = findOne pid ps.
Proof.
  intro N. induction ps as [|x ps IH]; simpl.
  - destruct (String.eqb_spec (paymentId p) pid); [contradiction|reflexivity].
  - destruct (paymentId x =? pid)%string; auto.
Qed.

Lemma findOne_save_other (pid : string) (p' : Payment) (ps : list Payment) :
  paymentId p' <> pid -> findOne pid (save p' ps) = findOne pid ps.
Proof.
  intro N. induction ps as [|x ps IH]; simpl; [reflexivity|].
  destruct (String.eqb_spec (paymentId x) (paymentId p')) as [E|E]; simpl.
  - destruct (String.eqb_spec (paymentId p') pid) as [F|F]; [contradiction|].
    destruct (String.eqb_spec (paymentId x) pid) as [G|G];
      [congruence|reflexivity].
  - destruct (paymentId x =? pid)%string; auto.
Qed.

Lemma map_save {B : Type} (f : Payment -> B) (p' p : Payment)
    (ps : list Payment) :
  findOne (paymentId p') ps = Some p -> f p' = f p ->
  map f (save p' ps) = map f ps.
Proof.
  intros F E. induction ps as [|x ps IH]; simpl in *; [reflexivity|].
  destruct (paymentId x =? paymentId p')%string; simpl.
  - injection F as ->. rewrite E. reflexivity.
  - rewrite IH by exact F. reflexivity.
Qed.

Lemma findOne_notin (pid : string) (ps : list Payment) :
  findOne pid ps = None -> ~ In pid (map paymentId ps).
Proof.
  induction ps as [|x ps IH]; simpl; [intros _ []|].
  destruct (String.eqb_spec (paymentId x) pid) as [E|E]; [discriminate|].
  intros H [F|F]; [contradiction|exact (IH H F)].
Qed.

(** What [Payment.create] returns when it returns a document. *)
Lemma create_some (js_Number : string -> option Z) (e : InitEnv)
    (b : InitBody) (ps : list Payment) (p : Payment) :
  create js_Number e b ps = Some p ->
  paymentId p = fresh_paymentId e
  /\ findOne (fresh_paymentId e) ps = None
  /\ status p = "initiated"
  /\ b_orderId b = Some (orderId p)
  /\ castNumber js_Number (b_amount b) = CastNum (amount p)
  /\ cardLast4 p = option_map slice_last4 (b_cardNumber b).
Proof.
  unfold create.
  destruct (b_orderId b) as [oid|]; [|discriminate].
  destruct (Js.str_or _ _) as [uid|]; [|discriminate].
  destruct (castNumber _ _) as [| |amt]; try discriminate.
  destruct (b_method b) as [m|]; [|discriminate].
  destruct (findOne (fresh_paymentId e) ps);
    [rewrite andb_false_r; discriminate|].
  destruct (_ && _); [|discriminate].
  intro H; injection H as <-. repeat split.
Qed.

(** What a write route does to the payments: nothing, one new payment under
    a payment id not used before, or one stored payment rewritten under the
    same identity. *)
Lemma payment_handle_shape (js_Number : string -> option Z) (r : Request)
    (s : State) :
  payments (handle js_Number r s) = payments s
  \/ (exists p, payments (handle js_Number r s) = payments s ++ [p]
                /\ findOne (paymentId p) (payments s) = None)
  \/ (exists p p', payments (handle js_Number r s) = save p' (payments s)
                   /\ findOne (paymentId p') (payments s) = Some p
                   /\ identity p' = identity p).
Proof.
  destruct r as [e b | e b | t pid b]; simpl.
  - unfold initiate. destruct (create js_Number e b (payments s)) as [p|] eqn:C;
      [|left; reflexivity].
    right; left. exists p. split; [reflexivity|].
    destruct (create_some _ _ _ _ _ C) as [I [F _]]. rewrite I. exact F.
  - unfold confirm. destruct (findOne _ (payments s)) as [p|] eqn:F;
      [|left; reflexivity].
    right; right. exists p. eexists. split; [reflexivity|].
    split; [|reflexivity]. simpl. rewrite (findOne_paymentId _ _ _ F). exact F.
  - unfold refund. destruct (findOne pid (payments s)) as [p|] eqn:F;
      [|left; reflexivity].
    destruct (negb _); [left; reflexivity|].
    pose proof (findOne_paymentId _ _ _ F) as I.
    destruct (castNumber _ _); [left; reflexivity| |];
      right; right; exists p; eexists; (split; [reflexivity|]);
      (split; [|reflexivity]); simpl; rewrite I; exact F.
Qed.

(** X13.  Reading back: after [POST /initiate] has answered 201,
    [GET /:paymentId] with the payment id of the answer returns the new
    payment, in status initiated, for the order and the amount of the
    request; every other payment id is answered as before. *)
Theorem initiate_then_getPayment (js_Number : string -> option Z)
    (e : InitEnv) (b : InitBody) (s s' : State) (d : InitData) :
  initiate js_Number e b s = (mkResponse 201 true EmptyString (Some d), s') ->
  exists p,
    getPayment (d_paymentId d) s' = mkResponse 200 true EmptyString (Some p)
    /\ paymentId p = d_paymentId d /\ amount p = d_amount d
    /\ status p = "initiated" /\ d_status d = "initiated"
    /\ b_orderId b = Some (orderId p)
    /\ castNumber js_Number (b_amount b) = CastNum (amount p)
    /\ forall pid, pid <> d_paymentId d -> getPayment pid s' = getPayment pid s.
Proof.
  unfold initiate. destruct (create js_Number e b (payments s)) as [p|] eqn:C;
    [|discriminate].
  intro H. injection H as <- <-.
  destruct (create_some _ _ _ _ _ C) as [I [F [S [O [A _]]]]].
  exists p. unfold getPayment. cbn [d_paymentId d_amount d_status payments].
  rewrite (findOne_app_fresh _ _ _ (eq_ind_r (fun x => findOne x _ = None) F I)
             eq_refl).
  repeat split; auto.
  intros pid N. rewrite findOne_app_other by congruence. reflexivity.
Qed.

Lemma initiate_then_getPayment_witness :
  exists p,
    getPayment "pay_1" initiated1 = mkResponse 200 true EmptyString (Some p)
    /\ paymentId p = "pay_1" /\ amount p = 286
    /\ status p = "initiated".
Proof.
  destruct (initiate_then_getPayment no_number initEnv1 initBody1 empty
              initiated1
              (mkInitData "pay_1" 286 "INR" "initiated" "mock_1"
                 "http://localhost:3000/payment-success?paymentId=pay_1" None)
              eq_refl) as [p [G [I [A [S _]]]]].
  exists p. auto.
Defined.

(** X14.  Payment ids stay unique: if no two stored payments share a
    [paymentId], the same holds after any sequence of initiate, confirm and
    refund requests. *)
Theorem payments_keep_ids_unique (js_Number : string -> option Z)
    (rs : list Request) (s : State) :
  NoDup (map paymentId (payments s)) ->
  NoDup (map paymentId (payments (serve js_Number rs s))).
Proof.
  revert s. induction rs as [|r rs IH]; intros s N; simpl; [exact N|].
  apply IH.
  destruct (payment_handle_shape js_Number r s)
    as [E|[[p [E F]]|[p [p' [E [F G]]]]]]; rewrite E.
  - exact N.
  - rewrite map_app. apply NoDup_snoc; [exact N|].
    apply findOne_notin. exact F.
  - rewrite (map_save paymentId p' p _ F); [exact N|].
    symmetry. eapply findOne_paymentId; eauto.
Qed.

Lemma payments_keep_ids_unique_witness :
  NoDup (map paymentId
           (payments (serve no_number
                        [PostInitiate initEnv2 initBody1;
                         PostRefund 4000 "pay_1" (mkRefundBody None JNull)]
                        completed1))).
Proof.
  apply (payments_keep_ids_unique no_number
           [PostInitiate initEnv2 initBody1;
            PostRefund 4000 "pay_1" (mkRefundBody None JNull)] completed1).
  simpl. repeat constructor. intros [].
Defined.

(** X15.  A stored payment is never removed and what it was initiated with
    never changes: after any sequence of requests it is still found under
    its payment id, with the same order, user, amount, currency, method and
    creation time. *)
Theorem payments_keep_identity (js_Number : string -> option Z)
    (rs : list Request) (s : State) (pid : string) (p : Payment) :
  findOne pid (payments s) = Some p ->
  exists p', findOne pid (payments (serve js_Number rs s)) = Some p'
             /\ identity p' = identity p.
Proof.
  revert s p. induction rs as [|r rs IH]; intros s p F; simpl; [eauto|].
  assert (K : exists p1, findOne pid (payments (handle js_Number r s)) = Some p1
                         /\ identity p1 = identity p).
  { destruct (payment_handle_shape js_Number r s)
      as [E|[[q [E G]]|[q [q' [E [G I]]]]]]; rewrite E.
    - eauto.
    - exists p. split; [apply findOne_app_keeps; exact F|reflexivity].
    - destruct (String.eqb_spec (paymentId q') pid) as [X|X].
      + subst pid. exists q'. split; [eapply findOne_save; eauto|].
        congruence.
      + exists p. rewrite findOne_save_other by exact X. auto. }
  destruct K as [p1 [F1 I1]]. destruct (IH _ _ F1) as [p2 [F2 I2]].
  exists p2. split; [exact F2|congruence].
Qed.

Lemma payments_keep_identity_witness :
  exists p',
    findOne "pay_1"
      (payments (serve no_number
                   [PostConfirm (failure_at 3000 "txn_2") evidence;
                    PostRefund 4000 "pay_1" (mkRefundBody None JNull)]
                   completed1)) = Some p'
    /\ identity p' = identity paid1.
Proof.
  apply (payments_keep_identity no_number
           [PostConfirm (failure_at 3000 "txn_2") evidence;
            PostRefund 4000 "pay_1" (mkRefundBody None JNull)]
           completed1 "pay_1" paid1).
  reflexivity.
Defined.



(** X17.  A confirm or refund request addressed to one payment leaves every
    other payment exactly as stored. *)
Theorem payment_write_leaves_others (js_Number : string -> option Z)
    (e : ConfirmEnv) (cb : ConfirmBody) (t : Z) (pid : string)
    (rb : RefundBody) (s : State) (other : string) :
  other <> c_paymentId cb -> other <> pid ->
  findOne other (payments (snd (confirm e cb s))) = findOne other (payments s)
  /\ findOne other (payments (snd (refund js_Number t pid rb s)))
     = findOne other (payments s).
Proof.
  intros N1 N2. split.
  - unfold confirm. destruct (findOne _ (payments s)) as [p|] eqn:F;
      [|reflexivity].
    cbn [snd payments]. apply findOne_save_other. simpl.
    rewrite (findOne_paymentId _ _ _ F). congruence.
  - unfold refund. destruct (findOne pid (payments s)) as [p|] eqn:F;
      [|reflexivity].
    destruct (negb _); [reflexivity|].
    pose proof (findOne_paymentId _ _ _ F) as I.
    destruct (castNumber _ _); cbn [snd payments]; try reflexivity;
      apply findOne_save_other; simpl; congruence.
Qed.

Lemma payment_write_leaves_others_witness :
  let both := snd (initiate no_number initEnv2 initBody1 completed1) in
  findOne "pay_2"
    (payments (snd (confirm (failure_at 3000 "txn_2") evidence both)))
  = findOne "pay_2" (payments both)
  /\ findOne "pay_2"
       (payments (snd (refund no_number 4000 "pay_1" (mkRefundBody None JNull)
                         both)))
     = findOne "pay_2" (payments both).
Proof.
  apply (payment_write_leaves_others no_number (failure_at 3000 "txn_2")
           evidence 4000 "pay_1" (mkRefundBody None JNull)
           (snd (initiate no_number initEnv2 initBody1 completed1)) "pay_2");
    discriminate.
Defined.

(** X18.  What a confirm stores as [gatewayResponse]: the outcome of this
    call under [mockStatus] and the time of this call under [processedAt],
    whatever the request put under those keys, and under every other key
    but [transactionId] exactly what the request's [gatewayResponse] holds. *)
Theorem confirm_stores_evidence (e : ConfirmEnv) (b : ConfirmBody) (s : State)
    (p : Payment) :
  findOne (c_paymentId b) (payments s) = Some p ->
  exists p' g,
    findOne (c_paymentId b) (payments (snd (confirm e b s))) = Some p'
    /\ gatewayResponse p' = Some g
    /\ obj_get "mockStatus" g
       = Some (MStr (if isSuccess e then "SUCCESS" else "FAILED"))
    /\ obj_get "processedAt" g = Some (MDate (confirm_now e))
    /\ forall k, k <> "mockStatus" -> k <> "transactionId" ->
                 k <> "processedAt" ->
                 obj_get k g = match c_gatewayResponse b with
                               | Some o => obj_get k o
                               | None => None
                               end.
Proof.
  intro F. unfold confirm. rewrite F. cbn [snd payments].
  eexists _, _. split.
  - eapply findOne_save; [exact F|]. simpl. eapply findOne_paymentId; eauto.
  - split; [reflexivity|]. split; [|split].
    + rewrite !obj_get_set_other by discriminate. apply obj_get_set_same.
    + apply obj_get_set_same.
    + intros k N1 N2 N3. rewrite !obj_get_set_other by congruence.
      destruct (c_gatewayResponse b); reflexivity.
Qed.

Lemma confirm_stores_evidence_witness :
  exists p' g,
    findOne "pay_1"
      (payments (snd (confirm (failure_at 3000 "txn_2") evidence completed1)))
    = Some p'
    /\ gatewayResponse p' = Some g
    /\ obj_get "mockStatus" g = Some (MStr "FAILED")
    /\ obj_get "processedAt" g = Some (MDate 3000)
    /\ obj_get "gatewayRef" g = Some (MStr "gw_77").
Proof.
  destruct (confirm_stores_evidence (failure_at 3000 "txn_2") evidence
              completed1 paid1 eq_refl) as [p' [g [F [G [M [P K]]]]]].
  exists p', g. repeat split; try assumption.
  rewrite K by discriminate. reflexivity.
Defined.

Lemma substring_to_end (s : string) (n m : nat) :
  (n <= String.length s)%nat -> (String.length s <= n + m)%nat ->
  exists pre, s = (pre ++ substring n m s)%string /\ String.length pre = n.
Proof.
  revert n m. induction s as [|c s IH]; intros n m L U; simpl in *.
  - exists EmptyString. destruct n, m; simpl; split; auto; lia.
  - destruct n as [|n].
    + destruct m as [|m]; [lia|].
      destruct (IH 0%nat m) as [pre [E P]]; [lia|lia|].
      exists EmptyString. split; [|reflexivity]. simpl. f_equal.
      destruct pre; [exact E|discriminate].
    + destruct (IH n m) as [pre [E P]]; [lia|lia|].
      exists (String c pre). simpl. split; [f_equal; exact E|lia].
Qed.

Lemma substring_length (s : string) (n m : nat) :
  String.length (substring n m s) = Nat.min m (String.length s - n).
Proof.
  revert n m. induction s as [|c s IH]; intros n m; simpl.
  - destruct n, m; reflexivity.
  - destruct n as [|n].
    + destruct m as [|m]; simpl; [reflexivity|].
      rewrite IH. rewrite Nat.sub_0_r. reflexivity.
    + rewrite IH. reflexivity.
Qed.

(** X19.  Of a card number only its end is kept: the [cardLast4] that
    initiation stores is the last four characters of the number of the
    request, the whole number when it is shorter; without a card number
    nothing is stored. *)
Theorem initiate_cardLast4 (js_Number : string -> option Z)
    (e : InitEnv) (b : InitBody) (s s' : State) (d : InitData) :
  initiate js_Number e b s = (mkResponse 201 true EmptyString (Some d), s') ->
  exists p,
    findOne (d_paymentId d) (payments s') = Some p
    /\ match b_cardNumber b with
       | None => cardLast4 p = None
       | Some number =>
           exists front last,
             cardLast4 p = Some last
             /\ number = (front ++ last)%string
             /\ String.length last = Nat.min 4 (String.length number)
       end.
Proof.
  unfold initiate. destruct (create js_Number e b (payments s)) as [p|] eqn:C;
    [|discriminate].
  intro H. injection H as <- <-.
  destruct (create_some _ _ _ _ _ C) as [I [F [_ [_ [_ L]]]]].
  exists p. cbn [d_paymentId payments]. split.
  - apply findOne_app_fresh; [rewrite I; exact F|reflexivity].
  - rewrite L. destruct (b_cardNumber b) as [number|]; [|reflexivity].
    destruct (substring_to_end number (String.length number - 4) 4)
      as [front [E _]]; [lia|lia|].
    exists front, (slice_last4 number). split; [reflexivity|].
    split; [exact E|]. unfold slice_last4. rewrite substring_length. lia.
Qed.

Lemma initiate_cardLast4_witness :
  exists p,
    findOne "pay_1" (payments initiated1) = Some p
    /\ exists front last,
         cardLast4 p = Some last
         /\ "4111111111111111" = (front ++ last)%string
         /\ String.length last = Nat.min 4 (String.length "4111111111111111").
Proof.
  apply (initiate_cardLast4 no_number initEnv1 initBody1 empty initiated1
           (mkInitData "pay_1" 286 "INR" "initiated" "mock_1"
              "http://localhost:3000/payment-success?paymentId=pay_1" None)).
  reflexivity.
Defined.

(** X20.  Initiation is refused with 500, the error is logged and no payment
    is stored when the request names no order, when its amount is absent or
    does not cast to a number, when its method is absent or not one of the
    schema's, or when the generated payment id is already taken. *)
Theorem initiate_invalid_rejected (js_Number : string -> option Z)
    (e : InitEnv) (b : InitBody) (s : State) :
  b_orderId b = None \/ b_orderId b = Some EmptyString
  \/ (forall n, castNumber js_Number (b_amount b) <> CastNum n)
  \/ b_method b = None
  \/ (exists m, b_method b = Some m /\ includes method_enum m = false)
  \/ (exists p, findOne (fresh_paymentId e) (payments s) = Some p) ->
  initiate js_Number e b s
  = (failed 500 "Failed to initiate payment",
     mkState (payments s) (console s ++ [LogError "Initiate payment error:"])).
Proof.
  intro H. unfold initiate.
  replace (create js_Number e b (payments s)) with (@None Payment);
    [reflexivity|].
  symmetry. unfold create.
  destruct (b_orderId b) as [oid|] eqn:O; [|reflexivity].
  destruct (Js.str_or _ _) as [uid|]; [|reflexivity].
  destruct (castNumber _ _) as [| |amt] eqn:A; try reflexivity.
  destruct (b_method b) as [m|] eqn:M; [|reflexivity].
  destruct H as [H|[H|[H|[H|[[m' [H1 H2]]|[p H]]]]]]; try discriminate.
  - injection H as ->. reflexivity.
  - exfalso. exact (H amt eq_refl).
  - injection H1 as <-. rewrite H2, andb_false_r. reflexivity.
  - rewrite H, andb_false_r. reflexivity.
Qed.

Lemma initiate_invalid_rejected_witness :
  initiate no_number initEnv1
    (mkInitBody (Some "ord_1") (Some "user_1") (JNum 286) (Some "cash")
       None None) empty
  = (failed 500 "Failed to initiate payment",
     mkState [] [LogError "Initiate payment error:"]).
Proof.
  apply (initiate_invalid_rejected no_number initEnv1
           (mkInitBody (Some "ord_1") (Some "user_1") (JNum 286) (Some "cash")
              None None) empty).
  do 4 right. left. exists "cash". split; reflexivity.
Defined.

(** X21.  Confirm decides whether a refund is possible: right after a
    confirm of a stored payment, a refund request for it with a numeric
    amount is answered 200 when the confirm succeeded and 400 when it
    failed, whatever the status of the payment was before. *)
Theorem confirm_then_refund (js_Number : string -> option Z)
    (e : ConfirmEnv) (cb : ConfirmBody) (t : Z) (reason : option string)
    (n : Z) (s : State) (p : Payment) :
  findOne (c_paymentId cb) (payments s) = Some p ->
  res_code (fst (refund js_Number t (c_paymentId cb)
                   (mkRefundBody reason (JNum n)) (snd (confirm e cb s))))
  = if isSuccess e then 200 else 400.
Proof.
  intro F. unfold confirm. rewrite F. cbn [snd]. unfold refund.
  cbn [payments]. erewrite findOne_save;
    [|exact F|simpl; eapply findOne_paymentId; eauto].
  cbn [status confirmed r_amount]. unfold Js.or, truthy.
  destruct (isSuccess e); [|reflexivity].
  destruct (n =? 0); reflexivity.
Qed.

Lemma confirm_then_refund_witness :
  res_code (fst (refund no_number 4000 "pay_1" (mkRefundBody None (JNum 100))
                   (snd (confirm (failure_at 3000 "txn_2") evidence
                           completed1))))
  = 400.
Proof.
  apply (confirm_then_refund no_number (failure_at 3000 "txn_2") evidence 4000
           None 100 completed1 paid1).
  reflexivity.
Defined.

(** X22.  [GET /user/:userId] answers 200 with exactly the stored payments
    of that user, none of them twice when none is stored twice, the most
    recently created first. *)
Theorem getPaymentsByUser_listing (uid : string) (s : State) :
  exists l,
    getPaymentsByUser uid s = mkResponse 200 true EmptyString (Some l)
    /\ (forall p, In p l <-> In p (payments s) /\ userId p = uid)
    /\ (NoDup (payments s) -> NoDup l)
    /\ StronglySorted (Mongo.not_older createdAt) l.
Proof.
  eexists. split; [reflexivity|]. split; [|split].
  - intro p. split.
    + intro I. apply (Permutation_in _ (sort_desc_perm _ _ _)) in I.
      apply filter_In in I as [I P]. apply String.eqb_eq in P. auto.
    + intros [I C].
      apply (Permutation_in _ (Permutation_sym (sort_desc_perm _ _ _))).
      apply filter_In. split; [exact I|]. rewrite C. apply String.eqb_refl.
  - intro N.
    apply (Permutation_NoDup (Permutation_sym (sort_desc_perm _ _ _))).
    apply NoDup_filter. exact N.
  - apply sort_desc_sorted.
Qed.

End PaymentExtras.


(** * Further properties of the inventory route *)

Section InventoryExtras.
Import ProductInventory ProductModel Samples MoreSamples.

Lemma findByIdAndUpdate_none (id : string) (u : Update) (t : Z)
    (ps : list Product) :
  findById id ps = None -> findByIdAndUpdate id u t ps = (None, ps).
Proof.
  induction ps as [|p ps IH]; simpl; [reflexivity|].
  destruct (_id p =? id)%string; [discriminate|].
  intro H. rewrite (IH H). reflexivity.
Qed.

Lemma findByIdAndUpdate_some (id : string) (u : Update) (t : Z)
    (ps : list Product) (p : Product) :
  findById id ps = Some p ->
  exists ps',
    findByIdAndUpdate id u t ps = (Some (apply_update u t p), ps')
    /\ findById id ps' = Some (apply_update u t p)
    /\ forall id', id' <> id -> findById id' ps' = findById id' ps.
Proof.
  induction ps as [|x ps IH]; simpl; [discriminate|].
  destruct (String.eqb_spec (_id x) id) as [E|E].
  - intro H; injection H as ->. eexists. split; [reflexivity|]. split.
    + simpl. rewrite E, String.eqb_refl. reflexivity.
    + intros id' N. simpl.
      destruct (String.eqb_spec (_id p) id'); [congruence|reflexivity].
  - intro H. destruct (IH H) as [ps' [A [B C]]]. rewrite A.
    eexists. split; [reflexivity|]. split.
    + simpl. destruct (String.eqb_spec (_id x) id); [contradiction|exact B].
    + intros id' N. simpl. rewrite (C id' N). reflexivity.
Qed.

Lemma updateInventory_products (t : Z) (id : string) (b : InventoryBody)
    (s : State) (p : Product) (u : Update) :
  findById id (products s) = Some p ->
  u = (let op := match operation b with Some o => o | None => "set" end in
       if (op =? "increment")%string then Inc (quantity_ b)
       else if (op =? "decrement")%string then Inc (- quantity_ b)
       else Set_ (quantity_ b)) ->
  exists ps',
    findByIdAndUpdate id u t (products s) = (Some (apply_update u t p), ps')
    /\ products (snd (updateInventory t id b s)) = ps'
    /\ channel (snd (updateInventory t id b s)) = channel s
    /\ findById id ps' = Some (apply_update u t p)
    /\ forall id', id' <> id -> findById id' ps' = findById id' (products s).
Proof.
  intros F U. destruct (findByIdAndUpdate_some id u t _ p F) as [ps' [A [B C]]].
  exists ps'. split; [exact A|]. unfold updateInventory.
  subst u. cbv zeta in A |- *. rewrite A. cbn [snd].
  split; [|split; [|split; assumption]].
  - destruct (_ && _); [unfold publishEvent; cbn [channel];
                        destruct (channel s)|]; reflexivity.
  - destruct (_ && _); [unfold publishEvent; cbn [channel];
                        destruct (channel s) eqn:Ch|]; cbn [channel]; auto.
Qed.

(** X24.  An inventory update of a stored product is answered 200 with the
    new quantity, and it publishes one [inventory.low] event, carrying that
    quantity, exactly when the channel is open and the updated product is
    low on stock in the sense of the model's [isLowStock]: at or below its
    threshold and above zero.  Nothing is published for a product that has
    run out. *)
Theorem updateInventory_low_stock_event (t : Z) (id : string)
    (b : InventoryBody) (s : State) (p : Product) :
  findById id (products s) = Some p ->
  exists p',
    findById id (products (snd (updateInventory t id b s))) = Some p'
    /\ fst (updateInventory t id b s)
       = mkResponse 200 true "Inventory updated"
           (Some (mkInventoryData (quantity p') (status p')))
    /\ published (snd (updateInventory t id b s))
       = (if channel s && isLowStock p'
          then published s
               ++ [mkEvent "inventory.low" id (vendorId p') (quantity p') t]
          else published s)
    /\ (quantity p' <= 0 ->
        published (snd (updateInventory t id b s)) = published s).
Proof.
  intro F.
  destruct (updateInventory_products t id b s p _ F eq_refl)
    as [ps' [A [P [_ [G _]]]]].
  eexists. split; [rewrite P; exact G|].
  assert (I : _id p = id).
  { clear - F. induction (products s) as [|x l IH]; simpl in F; [discriminate|].
    destruct (String.eqb_spec (_id x) id) as [E|E]; [|auto].
    injection F as <-. exact E. }
  unfold updateInventory. cbv zeta in A |- *. rewrite A. cbn [fst snd].
  unfold isLowStock, publishEvent.
  cbn [quantity lowStockThreshold vendorId _id apply_update channel].
  rewrite I. split; [reflexivity|].
  set (q := match _ with Inc n => quantity p + n | Set_ n => n end).
  destruct (Z.leb_spec q (lowStockThreshold p)), (Z.ltb_spec 0 q),
           (channel s); cbn [andb published]; split; try reflexivity; lia.
Qed.

Lemma updateInventory_low_stock_event_witness :
  exists p',
    findById "prod_1"
      (products (snd (updateInventory 2000 "prod_1"
                        (mkInventoryBody 4 (Some "decrement")) stock12)))
    = Some p'
    /\ quantity p' = 8
    /\ published (snd (updateInventory 2000 "prod_1"
                         (mkInventoryBody 4 (Some "decrement")) stock12))
       = [mkEvent "inventory.low" "prod_1" "vend_1" 8 2000].
Proof.
  destruct (updateInventory_low_stock_event 2000 "prod_1"
              (mkInventoryBody 4 (Some "decrement")) stock12
              (mkProduct "prod_1" "vend_1" 12 10 "In Stock" 1000) eq_refl)
    as [p' [F [_ [E _]]]].
  exists p'. split; [exact F|]. vm_compute in F. injection F as <-.
  split; [reflexivity|exact E].
Defined.

End InventoryExtras.


(** * Further properties of the broker client *)

Section MessagingExtras.
Import Messaging.

Variable Content : Type.
Variable JSON_parse : string -> option Content.
Variable St : Type.
Variable handler : Content -> Message -> St -> St * bool.

(** X27.  A message whose body does not parse never reaches the handler:
    however often it is delivered, the subscriber's state stays what it
    was. *)
Theorem unparsable_never_handled (n : nat) (m : Message) (rest : list Message)
    (q : Queue) (st : St) :
  JSON_parse (content m) = None ->
  ready q = m :: rest ->
  snd (run Content JSON_parse St handler n q st) = st.
Proof.
  revert m q. induction n as [|k IH]; intros m q P R; [reflexivity|].
  cbn [run]. unfold deliver, on_message. rewrite R. cbn [content]. rewrite P.
  apply (IH (mkMessage (content m) (S (deliveries m)) true)); [exact P|].
  reflexivity.
Qed.

End MessagingExtras.

Section MessagingExtrasExamples.
Import Messaging Samples MoreSamples.

Lemma unparsable_never_handled_witness :
  snd (run string parse_none nat always_returns 4 queue1 7%nat) = 7%nat.
Proof.
  apply (unparsable_never_handled string parse_none nat always_returns 4
           poison [] queue1 7%nat); reflexivity.
Defined.

End MessagingExtrasExamples.

Section PublisherExtras.
Import PaymentService Publisher.

(** X28.  [publish] on a client that is not connected throws after logging
    and hands nothing to the channel.  On a connected client it hands over
    one message for the given exchange and routing key whose
    [correlationId] is the uuid drawn by this call and whose [timestamp] is
    the time of this call, whatever the caller put under those two keys;
    every other field is the caller's. *)
Theorem publish_envelope (ts uuid exchange routingKey : string)
    (message : Obj) (c : Client) :
  if connected c
  then exists body c',
         publish ts uuid exchange routingKey message c = Returned c'
         /\ sent c' = sent c ++ [ToExchange exchange routingKey body]
         /\ connected c' = true /\ errors c' = errors c
         /\ obj_get "correlationId" body = Some (MStr uuid)
         /\ obj_get "timestamp" body = Some (MStr ts)
         /\ forall k, k <> "correlationId" -> k <> "timestamp" ->
                      obj_get k body = obj_get k message
  else exists c',
         publish ts uuid exchange routingKey message c = Thrown c'
         /\ sent c' = sent c /\ connected c' = false
         /\ errors c' = errors c ++ ["Failed to publish message:"].
Proof.
  unfold publish. destruct (connected c) eqn:K; cbn [negb].
  - eexists _, _. split; [reflexivity|]. cbn [sent connected errors].
    repeat split.
    + apply obj_get_set_same.
    + rewrite obj_get_set_other by discriminate. apply obj_get_set_same.
    + intros k N1 N2. rewrite !obj_get_set_other by congruence. reflexivity.
  - eexists. split; [reflexivity|]. cbn [sent connected errors]. auto.
Qed.

(** X29.  [sendToQueue] on a client that is not connected throws after
    logging and sends nothing.  On a connected client it sends one message
    to the queue, stamped with the time of the call; unlike [publish] it
    adds no [correlationId]: that field and every other one but
    [timestamp] are as the caller gave them. *)
Theorem sendToQueue_envelope (ts queue : string) (message : Obj) (c : Client) :
  if connected c
  then exists body c',
         sendToQueue ts queue message c = Returned c'
         /\ sent c' = sent c ++ [ToQueue queue body]
         /\ obj_get "timestamp" body = Some (MStr ts)
         /\ forall k, k <> "timestamp" -> obj_get k body = obj_get k message
  else exists c',
         sendToQueue ts queue message c = Thrown c'
         /\ sent c' = sent c
         /\ errors c' = errors c ++ ["Failed to send to queue:"].
Proof.
  unfold sendToQueue. destruct (connected c); cbn [negb].
  - eexists _, _. split; [reflexivity|]. cbn [sent]. repeat split.
    + apply obj_get_set_same.
    + intros k N. rewrite obj_get_set_other by congruence. reflexivity.
  - eexists. split; [reflexivity|]. cbn [sent errors]. auto.
Qed.

End PublisherExtras.


(** * The routes on requests as they arrive *)

Section RequestFacts.
Import Js OrderModel OrderRoutes Http.

Lemma reduce_numbers (its : list OrderItem) (a : Z) :
  0 <= a ->
  Forall (fun i => 0 <= i_subtotal i) its ->
  a + sum_subtotals its <= bound ->
  reduce (SNum a) (map r_subtotal (map raw_item its))
  = Some (SNum (a + sum_subtotals its)).
Proof.
  revert a. induction its as [|i its IH]; intros a A F B; simpl.
  - rewrite Z.add_0_r. reflexivity.
  - inversion F as [|? ? P F']; subst. simpl in B.
    assert (S : 0 <= sum_subtotals its).
    { clear - F'. induction its as [|j its IH]; simpl; [lia|].
      inversion F'; subst. specialize (IH H2). lia. }
    unfold checked, in_range.
    replace (Z.abs (i_subtotal i) <=? bound) with true
      by (symmetry; apply Z.leb_le; lia).
    replace (Z.abs (a + i_subtotal i) <=? bound) with true
      by (symmetry; apply Z.leb_le; lia).
    rewrite IH by (assumption || lia). f_equal. f_equal. lia.
Qed.

Lemma objects_items (its : list OrderItem) :
  objects (map (fun i => EItem (raw_item i)) its) = Some (map raw_item its).
Proof.
  induction its as [|i its IH]; simpl; [reflexivity|].
  rewrite IH. reflexivity.
Qed.

Lemma cast_items_numbers (its : list OrderItem) :
  Forall (fun i => 0 <= i_subtotal i) its ->
  sum_subtotals its <= bound ->
  cast_items (map raw_item its) = Value its.
Proof.
  induction its as [|i its IH]; intros F B; simpl; [reflexivity|].
  inversion F as [|? ? P F']; subst. simpl in B.
  assert (S : 0 <= sum_subtotals its).
  { clear - F'. induction its as [|j its IH']; simpl; [lia|].
    inversion F'; subst. specialize (IH' H2). lia. }
  rewrite IH by (assumption || lia).
  unfold cast_item, cast_required, raw_item, in_range. cbn [r_subtotal].
  replace (Z.abs (i_subtotal i) <=? bound) with true
    by (symmetry; apply Z.leb_le; lia).
  destruct i; reflexivity.
Qed.

(** On a body whose subtotals are numbers, none negative and together within
    the bound, the route computes what the typed handler computes. *)
Lemma post_order_typed (e : Env) (b : CreateBody) (db : Orders) :
  match b_items b with
  | Some its =>
      Forall (fun i => 0 <= i_subtotal i) its /\ sum_subtotals its <= bound
  | None => True
  end ->
  post_order e (raw_body b) db = Some (createOrder e b db).
Proof.
  unfold post_order, createOrder, raw_body. cbn [rc_items].
  destruct (b_items b) as [its|]; [|reflexivity].
  intros [F B]. cbn [option_map]. rewrite objects_items.
  assert (S : 0 <= sum_subtotals its).
  { clear - F. induction its as [|j its IH]; simpl; [lia|].
    inversion F; subst. specialize (IH H2). lia. }
  rewrite (reduce_numbers its 0) by (assumption || lia).
  cbn [to_number cast_sum plus_number Z.add].
  rewrite cast_items_numbers by assumption.
  replace (set_amounts _ _ _ _ _) with (new_order e b its);
    [destruct (validate _ && negb _); reflexivity|].
  unfold set_amounts, new_order, typed_body. cbn.
  rewrite reduce_subtotal_sum. reflexivity.
Qed.

End RequestFacts.

Section RequestClaims.
Import Js OrderModel OrderRoutes OrderQueries Http.

Variable castObjectId : string -> option string.

Lemma post_order_created (e : Env) (rb : RawCreateBody) (db db' : Orders)
    (o : Order) :
  post_order e rb db
    = Some (mkResponse 201 true "Order placed successfully" (Some o), db') ->
  db' = db ++ [o] /\ duplicate_key o db = false /\ validate o = true.
Proof.
  unfold post_order. destruct (rc_items rb) as [els|]; [|discriminate].
  destruct (objects els) as [raws|]; [|discriminate].
  destruct (reduce _ _) as [sub|]; [|discriminate].
  destruct (to_number sub) as [num|]; [|discriminate].
  repeat match goal with
         | |- context [match cast_items ?x with _ => _ end] =>
             destruct (cast_items x)
         | |- context [match cast_sum ?x with _ => _ end] =>
             destruct (cast_sum x)
         end; try discriminate.
  destruct (validate _ && negb _) eqn:V; [|discriminate].
  intro H. injection H as <- <-.
  apply andb_true_iff in V as [V D]. apply negb_true_iff in D. auto.
Qed.

(** C3, as the code has it.  The status route consults no transition table.
    A request whose id does not cast to an ObjectId is answered 500 and one
    whose id names no stored order 404, both with nothing written; for an
    order that is stored and any of the nine schema statuses, the update is
    answered 200 and the stored order takes the requested status, whatever
    its status was, its amounts unchanged. *)
Theorem put_status_unconditional (t : Z) (param : string) (b : StatusBody)
    (db : Orders) :
  Js.includes status_enum (s_status b) = true ->
  match castObjectId param with
  | None =>
      put_status castObjectId t param b db
      = (failed 500 "Failed to update order", db)
  | Some id =>
      match findById id db with
      | None =>
          put_status castObjectId t param b db
          = (failed 404 "Order not found", db)
      | Some o =>
          exists o',
            put_status castObjectId t param b db
              = (mkResponse 200 true "Order status updated" (Some o'),
                 store o' db)
            /\ findById id (store o' db) = Some o'
            /\ status o' = s_status b
            /\ totals o' = totals o
      end
  end.
Proof.
  intros _. unfold put_status. destruct (castObjectId param) as [id|];
    [|reflexivity].
  destruct (findById id db) as [o|] eqn:F.
  - destruct (updateStatus_stored t id b db o F) as [E [_ G]].
    eexists. split; [exact E|]. split; [exact G|]. split.
    + change (status (set_updatedAt t ?x)) with (status x).
      apply updateData_status.
    + change (totals (set_updatedAt t ?x)) with (totals x).
      apply fold_apply_set_keeps.
  - unfold updateStatus, findByIdAndUpdate. rewrite F. reflexivity.
Qed.

(** X1.  Reading back: after [POST /] has answered 201 with an order,
    [GET /:id] answers 200 with that order for every parameter that casts to
    its id; a parameter that casts to another id is answered as before the
    creation, and one that does not cast is answered 500. *)
Theorem created_order_is_served (e : Env) (rb : RawCreateBody)
    (db db' : Orders) (o : Order) (param : string) :
  post_order e rb db
    = Some (mkResponse 201 true "Order placed successfully" (Some o), db') ->
  match castObjectId param with
  | None =>
      get_order castObjectId param db' = failed 500 "Failed to fetch order"
  | Some id =>
      if (id =? _id o)%string
      then get_order castObjectId param db'
           = mkResponse 200 true EmptyString (Some o)
      else get_order castObjectId param db' = get_order castObjectId param db
  end.
Proof.
  intro H. destruct (post_order_created _ _ _ _ _ H) as [-> [D _]].
  unfold get_order. destruct (castObjectId param) as [id|]; [|reflexivity].
  unfold getOrderById. destruct (String.eqb_spec id (_id o)) as [E|E].
  - subst id. rewrite findById_app_fresh;
      [reflexivity|apply duplicate_key_fresh; exact D|reflexivity].
  - rewrite findById_app_other by congruence. reflexivity.
Qed.

(** X9.  A status update or a cancel request leaves alone every stored
    order but the one its parameter casts to: an order under any other id
    reads as before, and when the parameter does not cast nothing is
    written at all. *)
Theorem writes_leave_other_orders (t : Z) (param : string) (b : StatusBody)
    (reason : option string) (db : Orders) :
  match castObjectId param with
  | None =>
      snd (put_status castObjectId t param b db) = db
      /\ snd (post_cancel castObjectId t param reason db) = db
  | Some id =>
      forall id', id' <> id ->
        findById id' (snd (put_status castObjectId t param b db))
        = findById id' db
        /\ findById id' (snd (post_cancel castObjectId t param reason db))
           = findById id' db
  end.
Proof.
  unfold put_status, post_cancel.
  destruct (castObjectId param) as [id|]; [|split; reflexivity].
  intros id' N. split.
  - destruct (findById id db) as [o|] eqn:F.
    + destruct (updateStatus_stored t id b db o F) as [E [I _]].
      rewrite E. cbn [snd]. apply findById_store_other. congruence.
    + unfold updateStatus, findByIdAndUpdate. rewrite F. reflexivity.
  - unfold cancelOrder. destruct (findById id db) as [o|] eqn:F;
      [|reflexivity].
    destruct (Js.includes [_; _; _] (status o)); [reflexivity|].
    cbn [snd]. apply findById_store_other. simpl.
    rewrite (findById_id _ _ _ F). congruence.
Qed.

(** X25.  An inventory update whose id does not cast to an ObjectId is
    answered 500 and one whose id names no stored product 404, both with
    nothing written or published; an update of a stored product changes the
    quantity and the update time of that product only, and leaves every
    other product as stored. *)
Theorem patch_inventory_frame (t : Z) (param : string)
    (b : ProductInventory.InventoryBody) (s : ProductInventory.State) :
  match castObjectId param with
  | None =>
      patch_inventory castObjectId t param b s
      = (mkResponse 500 false "Failed to update inventory" None, s)
  | Some id =>
      match ProductInventory.findById id (ProductInventory.products s) with
      | None =>
          patch_inventory castObjectId t param b s
          = (mkResponse 404 false "Product not found" None, s)
      | Some p =>
          exists p',
            ProductInventory.findById id
              (ProductInventory.products
                 (snd (patch_inventory castObjectId t param b s))) = Some p'
            /\ ProductInventory._id p' = ProductInventory._id p
            /\ ProductInventory.vendorId p' = ProductInventory.vendorId p
            /\ ProductInventory.lowStockThreshold p'
               = ProductInventory.lowStockThreshold p
            /\ ProductInventory.status p' = ProductInventory.status p
            /\ ProductInventory.updatedAt p' = t
      end
      /\ forall id', id' <> id ->
           ProductInventory.findById id'
             (ProductInventory.products
                (snd (patch_inventory castObjectId t param b s)))
           = ProductInventory.findById id' (ProductInventory.products s)
  end.
Proof.
  unfold patch_inventory. destruct (castObjectId param) as [id|];
    [|reflexivity].
  destruct (ProductInventory.findById id (ProductInventory.products s))
    as [p|] eqn:F.
  - destruct (updateInventory_products t id b s p _ F eq_refl)
      as [ps' [_ [P [_ [G C]]]]].
    rewrite P. split; [|exact C].
    eexists. split; [exact G|]. repeat split.
  - unfold ProductInventory.updateInventory. cbv zeta.
    rewrite (findByIdAndUpdate_none _ _ _ _ F). split; reflexivity.
Qed.

End RequestClaims.

Section OrderRequestExamples.
Import Js OrderModel OrderRoutes OrderQueries Http.
Import Samples MoreSamples RequestSamples.

Lemma put_status_unconditional_witness :
  exists o',
    put_status ObjectId.cast 3000 order1_param
      (mkStatusBody "Processing" None None) [delivered1]
    = (mkResponse 200 true "Order status updated" (Some o'),
       store o' [delivered1])
    /\ findById (_id delivered1) (store o' [delivered1]) = Some o'
    /\ status o' = "Processing"
    /\ totals o' = totals delivered1.
Proof.
  apply (put_status_unconditional ObjectId.cast 3000 order1_param
           (mkStatusBody "Processing" None None) [delivered1]).
  reflexivity.
Defined.

Lemma created_order_is_served_witness :
  get_order ObjectId.cast order1_param [order1]
  = mkResponse 200 true EmptyString (Some order1).
Proof.
  apply (created_order_is_served ObjectId.cast env1
           (raw_body (cart (Some [apples]))) [] [order1] order1 order1_param).
  reflexivity.
Defined.

(** C4, on the code.  The apples are ordered with their subtotal sent as
    the string 200.  The route answers 201 and stores the item and the order
    with subtotal 200, shipping 50, tax 36 and no discount, and as total the
    number that the three texts 0200, 50 and 36 spell one after the other,
    2005036: not the subtotal less the discount plus tax and shipping. *)
Lemma post_order_text_subtotal :
  exists o,
    post_order env1 text_cart []
    = Some (mkResponse 201 true "Order placed successfully" (Some o), [o])
    /\ map i_subtotal (items o) = [200]
    /\ subtotal o = 200 /\ shippingCost o = 50 /\ tax o = 36
    /\ discount o = 0
    /\ totalAmount o = 2005036
    /\ totalAmount o <> subtotal o - discount o + tax o + shippingCost o.
Proof.
  eexists. split; [vm_compute; reflexivity|].
  vm_compute. repeat split. discriminate.
Qed.

(** X5.  For a request whose item subtotals are whole numbers, none
    negative and together at most [bound], a created order stores as
    subtotal the sum of the item subtotals and as total the subtotal less
    the discount plus tax and shipping; shipping is free exactly above 500,
    the tax is 18% of the subtotal rounded to the nearest unit, halves up;
    and whatever create, status and cancel requests follow, the order keeps
    its items and amounts. *)
Theorem post_order_whole_numbers (e : Env) (b : CreateBody) (db db' : Orders)
    (its : list OrderItem) (o : Order) :
  b_items b = Some its ->
  Forall (fun i => 0 <= i_subtotal i) its ->
  sum_subtotals its <= bound ->
  post_order e (raw_body b) db
    = Some (mkResponse 201 true "Order placed successfully" (Some o), db') ->
  items o = its
  /\ subtotal o = sum_subtotals its
  /\ totalAmount o = subtotal o - discount o + tax o + shippingCost o
  /\ (shippingCost o = 0 <-> 500 < subtotal o)
  /\ (shippingCost o = 50 <-> subtotal o <= 500)
  /\ -50 <= 18 * subtotal o - 100 * tax o < 50
  /\ forall rs : list Request,
       exists o', findById (_id o) (serve rs db') = Some o'
                  /\ totals o' = totals o.
Proof.
  intros I F B H.
  rewrite post_order_typed in H by (rewrite I; auto).
  injection H as H. unfold createOrder in H. rewrite I in H.
  destruct (validate _ && negb _) eqn:V; [|discriminate].
  injection H as <- <-.
  apply andb_true_iff in V as [_ D]. apply negb_true_iff in D.
  cbn [items subtotal totalAmount discount tax shippingCost new_order].
  rewrite reduce_subtotal_sum.
  split; [reflexivity|]. split; [reflexivity|]. split; [lia|].
  generalize (sum_subtotals its). intro sub.
  unfold shipping_for, gst_for.
  split; [|split; [|split]].
  - destruct (Z.ltb_spec 500 sub); split; intros; try lia; discriminate.
  - destruct (Z.ltb_spec 500 sub); split; intros; try lia; discriminate.
  - Z.div_mod_to_equations; lia.
  - intro rs. apply serve_keeps_totals.
    apply findById_app_fresh; [apply duplicate_key_fresh; exact D|reflexivity].
Qed.

Lemma post_order_whole_numbers_witness :
  items order2 = [pears]
  /\ subtotal order2 = sum_subtotals [pears]
  /\ totalAmount order2
     = subtotal order2 - discount order2 + tax order2 + shippingCost order2
  /\ (shippingCost order2 = 0 <-> 500 < subtotal order2)
  /\ (shippingCost order2 = 50 <-> subtotal order2 <= 500)
  /\ -50 <= 18 * subtotal order2 - 100 * tax order2 < 50
  /\ forall rs : list Request,
       exists o', findById (_id order2) (serve rs [order1; order2]) = Some o'
                  /\ totals o' = totals order2.
Proof.
  apply (post_order_whole_numbers env2 (cod_cart (Some [pears])) [order1]
           [order1; order2] [pears] order2).
  - reflexivity.
  - repeat constructor. simpl. lia.
  - vm_compute. discriminate.
  - reflexivity.
Defined.

End OrderRequestExamples.

Section PaymentRequestExamples.
Import Js PaymentService Http.
Import Samples RequestSamples.

(** C5, as the code has it.  [initiate] never looks for an earlier payment
    of the order: every call with an order id, a user id, a numeric amount,
    a method of the schema, a card number that is absent or a string, and a
    fresh payment id stores a new payment with status initiated and answers
    201 with it, so the order has one payment more than before, whatever
    payments it already had. *)
Theorem post_initiate_always_creates (js_Number : string -> option Z)
    (e : InitEnv) (rb : RawInitBody) (s : State)
    (oid uid m : string) (amt : Z) (card : option string) :
  ri_orderId rb = Some oid -> oid <> EmptyString ->
  Js.str_or (ri_userId rb) (x_user_id e) = Some uid -> uid <> EmptyString ->
  castNumber js_Number (ri_amount rb) = CastNum amt ->
  ri_method rb = Some m -> includes method_enum m = true ->
  read_card (ri_cardNumber rb) = Some card ->
  findOne (fresh_paymentId e) (payments s) = None ->
  exists p d,
    post_initiate js_Number e rb s
      = (mkResponse 201 true EmptyString (Some d),
         mkState (payments s ++ [p])
                 (console s ++ [LogInitiated (fresh_paymentId e) oid]))
    /\ paymentId p = fresh_paymentId e /\ d_paymentId d = fresh_paymentId e
    /\ orderId p = oid /\ amount p = amt /\ status p = "initiated"
    /\ cardLast4 p = option_map slice_last4 card
    /\ List.length (forOrder oid (payments s ++ [p]))
       = S (List.length (forOrder oid (payments s))).
Proof.
  intros O NO U NU A M ME C F.
  unfold post_initiate. rewrite C. unfold initiate, create.
  cbn [b_orderId b_userId b_amount b_method b_cardNumber b_upiId].
  rewrite O, U, A, M, ME, F.
  apply String.eqb_neq in NO, NU. rewrite NO, NU. simpl.
  eexists _, _. split; [reflexivity|]. repeat split.
  apply forOrder_snoc. reflexivity.
Qed.

Lemma post_initiate_always_creates_witness :
  exists p d,
    post_initiate no_number initEnv2 card_as_text initiated1
      = (mkResponse 201 true EmptyString (Some d),
         mkState (payments initiated1 ++ [p])
                 (console initiated1 ++ [LogInitiated "pay_2" "ord_1"]))
    /\ paymentId p = "pay_2" /\ d_paymentId d = "pay_2"
    /\ orderId p = "ord_1" /\ amount p = 286 /\ status p = "initiated"
    /\ cardLast4 p = option_map slice_last4 (Some "4111111111111111")
    /\ List.length (forOrder "ord_1" (payments initiated1 ++ [p]))
       = S (List.length (forOrder "ord_1" (payments initiated1))).
Proof.
  apply (post_initiate_always_creates no_number initEnv2 card_as_text
           initiated1 "ord_1" "user_1" "card" 286 (Some "4111111111111111"));
    try reflexivity; discriminate.
Defined.

(** X30.  An initiation whose card number is sent as a number or a boolean
    is answered 500: the error is logged and no payment is stored, whatever
    else the request holds. *)
Theorem post_initiate_card_not_text (js_Number : string -> option Z)
    (e : InitEnv) (rb : RawInitBody) (s : State) :
  (exists n, ri_cardNumber rb = JNum n)
  \/ (exists b, ri_cardNumber rb = JBool b) ->
  post_initiate js_Number e rb s
  = (PaymentService.failed 500 "Failed to initiate payment",
     mkState (payments s) (console s ++ [LogError "Initiate payment error:"])).
Proof.
  intros [[n H]|[b H]]; unfold post_initiate; rewrite H; reflexivity.
Qed.

Lemma post_initiate_card_not_text_witness :
  post_initiate no_number initEnv2 card_as_number initiated1
  = (PaymentService.failed 500 "Failed to initiate payment",
     mkState (payments initiated1)
       (console initiated1 ++ [LogError "Initiate payment error:"])).
Proof.
  apply (post_initiate_card_not_text no_number initEnv2 card_as_number
           initiated1).
  left. eexists. reflexivity.
Defined.

End PaymentRequestExamples.
